(** * The dashboard's process supervisor, log sink and controller

    A shallow embedding of the Go package [internal/cli] of local-first:
    the in-memory logger ([Logger.Log], [GetRecentLogs], [GetLogsBySource]),
    the port inspector ([isPortInUse], [getProcessByPort]), the supervisor
    commands ([checkServerStatus], [startServer], [stopServer],
    [restartServer]) and the Bubble Tea [Update] function of the dashboard.

    Go's [int] is taken at its 64-bit width and modelled in [Z]; Go strings
    are byte strings and modelled by [string].  Everything the operating
    system decides (what [lsof] prints, whether [make] succeeds, which PID a
    spawned child gets, whether a signal is delivered, what the clock shows)
    is a field of the class [OSModel], so every theorem holds for every
    behaviour of the operating system. *)

From Stdlib Require Import ZArith Lia String Ascii DecimalString.
From stdpp Require Import base list strings gmap.

Open Scope Z_scope.

(** ** The pieces of Go's standard library the package calls *)

Module Strings.

Definition byte (n : nat) : ascii := ascii_of_nat n.

Definition bytes (ns : list nat) : string :=
  string_of_list_ascii (byte <$> ns).

(** UTF-8 encodings of the code points for which [unicode.IsSpace] holds:
    TAB, LF, VT, FF, CR, SPACE, U+0085, U+00A0, U+1680, U+2000..U+200A,
    U+2028, U+2029, U+202F, U+205F and U+3000. *)
Definition space_runes : list string :=
  (bytes <$> [[9]; [10]; [11]; [12]; [13]; [32];
              [194; 133]; [194; 160]; [225; 154; 128]])%nat
  ++ ((λ b, bytes [226; 128; b]) <$> seq 128 11)%nat
  ++ (bytes <$> [[226; 128; 168]; [226; 128; 169]; [226; 128; 175];
                 [226; 129; 159]; [227; 128; 128]])%nat.

Fixpoint strip_prefix (p s : string) : option string :=
  match p, s with
  | EmptyString, _ => Some s
  | String a p', String b s' =>
      if Ascii.eqb a b then strip_prefix p' s' else None
  | String _ _, EmptyString => None
  end.

(** The rest of [s] behind the first of the encodings [ps] that starts it. *)
Fixpoint strip_any (ps : list string) (s : string) : option string :=
  match ps with
  | [] => None
  | p :: ps' =>
      match strip_prefix p s with
      | Some rest => Some rest
      | None => strip_any ps' s
      end
  end.

Fixpoint trim_left (fuel : nat) (ps : list string) (s : string) : string :=
  match fuel with
  | O => s
  | S fuel' =>
      match strip_any ps s with
      | Some rest => trim_left fuel' ps rest
      | None => s
      end
  end.

Definition TrimLeftSpace (s : string) : string :=
  trim_left (String.length s) space_runes s.

(** A string ends in the encoding of a space exactly when its reversal
    starts with the reversed encoding. *)
Definition TrimRightSpace (s : string) : string :=
  String.rev
    (trim_left (String.length s) (String.rev <$> space_runes) (String.rev s)).

(** [strings.TrimSpace]: all leading and trailing white space removed. *)
Definition TrimSpace (s : string) : string :=
  TrimRightSpace (TrimLeftSpace s).

End Strings.

Module Strconv.

(** [strconv.Itoa]: decimal digits, with a leading minus sign below zero. *)
Definition Itoa (z : Z) : string := NilZero.string_of_int (Z.to_int z).

Definition digit (c : ascii) : option Z :=
  let n := Z.of_nat (nat_of_ascii c) in
  if (48 <=? n) && (n <=? 57) then Some (n - 48) else None.

Fixpoint digits (acc : Z) (s : string) : option Z :=
  match s with
  | EmptyString => Some acc
  | String c s' =>
      match digit c with
      | Some d => digits (acc * 10 + d) s'
      | None => None
      end
  end.

Definition maxInt : Z := 2 ^ 63 - 1.
Definition minInt : Z := - 2 ^ 63.

(** [strconv.Atoi]: an optional sign, then at least one decimal digit and
    nothing else, the value within the range of [int]; [None] stands for
    every error return. *)
Definition Atoi (s : string) : option Z :=
  match s with
  | EmptyString => None
  | String c rest =>
      let neg := Ascii.eqb c "-" in
      let body := if neg || Ascii.eqb c "+" then rest else s in
      match body with
      | EmptyString => None
      | _ =>
          match digits 0 body with
          | None => None
          | Some n =>
              let v := if neg then - n else n in
              if (minInt <=? v) && (v <=? maxInt) then Some v else None
          end
      end
  end.

End Strconv.

Import Strings Strconv.

(** ** The logger *)

Inductive LogLevel := LogInfo | LogWarning | LogError | LogDebug | LogSystem.

Global Instance LogLevel_eq_dec : EqDecision LogLevel.
Proof. solve_decision. Defined.

Definition LogLevel_String (l : LogLevel) : string :=
  match l with
  | LogInfo => "INFO"
  | LogWarning => "WARN"
  | LogError => "ERROR"
  | LogDebug => "DEBUG"
  | LogSystem => "SYSTEM"
  end.

(** A point in time, as [time.Now] reads it off the clock. *)
Definition Time := Z.

Record LogEntry := mkLogEntry {
  Timestamp : Time;
  Level : LogLevel;
  Source : string;
  Message : string
}.

Global Instance LogEntry_eq_dec : EqDecision LogEntry.
Proof. solve_decision. Defined.

(** Go's zero value of [LogEntry], what [make] fills a fresh slice with. *)
Definition zeroLogEntry : LogEntry := mkLogEntry 0 LogInfo "" "".

(** [entries] is the in-memory buffer.  [mirrored] is a ghost field: the
    entries handed to a [go l.writeToFile(entry)] task so far, in the order
    the tasks were started. *)
Record Logger := mkLogger {
  entries : list LogEntry;
  logFile : string;
  mirrored : list LogEntry
}.

(** The logger [init] installs as [globalLogger]. *)
Definition newLogger : Logger := mkLogger [] ".local-first/cli.log" [].

(** [(l *Logger) Log], with the reading of the clock passed in as [now]. *)
Definition Log (now : Time) (level : LogLevel) (source message : string)
    (l : Logger) : Logger :=
  let entry := mkLogEntry now level source (TrimSpace message) in
  let es := entries l ++ [entry] in
  let es := if 500 <? Z.of_nat (length es) then drop 1 es else es in
  mkLogger es (logFile l) (mirrored l ++ [entry]).

(** Go's builtin [copy]: the first [min (len dst) (len src)] elements of
    [dst] are overwritten. *)
Definition copy {A} (dst src : list A) : list A :=
  take (length dst) src ++ drop (length src) dst.

(** [(l *Logger) GetRecentLogs]. *)
Definition GetRecentLogs (l : Logger) (limit : Z) : list LogEntry :=
  let n := Z.of_nat (length (entries l)) in
  let limit := if (limit <=? 0) || (n <? limit) then n else limit in
  if limit =? 0 then []
  else
    let start := n - limit in
    copy (replicate (Z.to_nat limit) zeroLogEntry)
         (drop (Z.to_nat start) (entries l)).

(** [(l *Logger) GetLogsBySource]. *)
Definition GetLogsBySource (l : Logger) (source : string) (limit : Z)
    : list LogEntry :=
  let filtered := filter (λ entry, Source entry = source) (entries l) in
  let n := Z.of_nat (length filtered) in
  if (0 <? limit) && (limit <? n)
  then drop (Z.to_nat (n - limit)) filtered
  else filtered.

(** One call of [Log]: the clock reading and the three arguments. *)
Record LogCall := mkLogCall {
  call_now : Time;
  call_level : LogLevel;
  call_source : string;
  call_message : string
}.

Definition doLog (l : Logger) (c : LogCall) : Logger :=
  Log (call_now c) (call_level c) (call_source c) (call_message c) l.

(** The entry a call appends. *)
Definition entryOf (c : LogCall) : LogEntry :=
  mkLogEntry (call_now c) (call_level c) (call_source c)
             (TrimSpace (call_message c)).

(** A sequence of calls of [Log], the earliest first. *)
Definition logAll (cs : list LogCall) (l : Logger) : Logger :=
  foldl doLog l cs.

(** ** The operating system, as the package sees it *)

(** An [error] value is identified with the text its [Error()] method gives,
    so [fmt.Errorf("p: %w", err)] is ["p: " ++ err]. *)
Definition error := string.

Inductive Signal := SIGTERM | SIGKILL.

(** What a command run to completion gives back to Go: its standard output
    and the [err] of [Run] / [Output], which is [nil] only if the command
    could be started and exited with status 0. *)
Record CmdResult := mkCmdResult {
  stdout : string;
  err : option error
}.

(** Every call may change the state of the system, and two calls of the same
    query need not agree. *)
Class OSModel := {
  OS : Type;
  (** [time.Now()] *)
  os_now : OS → Time;
  (** [exec.Command(name, args...)] followed by [Run()] or [Output()] *)
  os_run : string → list string → OS → CmdResult * OS;
  (** the [os.Pipe] behind [cmd.StdoutPipe()] and [cmd.StderrPipe()] *)
  os_pipe : OS → option error * OS;
  (** [cmd.Start()]: an error, or the PID of the new child *)
  os_start : string → list string → OS → (error + Z) * OS;
  (** [syscall.Getpgid(pid)] *)
  os_getpgid : Z → OS → (error + Z) * OS;
  (** [syscall.Kill(pid, sig)] *)
  os_kill : Z → Signal → OS → option error * OS;
  (** [time.Sleep], in milliseconds *)
  os_sleep : Z → OS → OS
}.

(** ** The dashboard's data *)

Inductive ServerStatus :=
  ServerStopped | ServerStarting | ServerRunning | ServerStopping.

Global Instance ServerStatus_eq_dec : EqDecision ServerStatus.
Proof. solve_decision. Defined.

Record ServerStatusMsg := mkStatusMsg {
  msg_Status : ServerStatus;
  msg_PID : Z;
  msg_Error : option error
}.

Record ServerInfo := mkServerInfo {
  Status : ServerStatus;
  Port : Z;
  PID : Z;
  Uptime : Z
}.

Record RequestLog := mkRequestLog {
  req_Timestamp : Time;
  req_Method : string;
  req_Path : string;
  req_Status : Z;
  req_Duration : Z
}.

(** A [key.Binding] is the list of key names it answers to. *)
Record KeyMap := mkKeyMap {
  km_Start : list string;
  km_Stop : list string;
  km_Restart : list string;
  km_Refresh : list string;
  km_NextTab : list string;
  km_PrevTab : list string;
  km_Clear : list string;
  km_Quit : list string
}.

Definition DefaultKeyMap : KeyMap :=
  {| km_Start := ["s"];
     km_Stop := ["x"];
     km_Restart := ["r"];
     km_Refresh := ["f5"; "ctrl+r"];
     km_NextTab := ["tab"; "right"];
     km_PrevTab := ["shift+tab"; "left"];
     km_Clear := ["c"; "esc"];
     km_Quit := ["q"; "ctrl+c"] |}.

(** [startTime] is [None] for the zero [time.Time]. *)
Record DashboardModel := mkDashboardModel {
  server : ServerInfo;
  requests : list RequestLog;
  logs : list LogEntry;
  selectedTab : Z;
  tabs : list string;
  width : Z;
  height : Z;
  startTime : option Time;
  keyMap : KeyMap;
  lastError : string;
  showError : bool
}.

(** ** The supervisor *)

(** [exec.Cmd], as far as the package looks into it: [Process] is [None]
    until [Start] has succeeded, and then holds the PID. *)
Record ExecCmd := mkExecCmd {
  Path : string;
  Args : list string;
  Process : option Z
}.

(** [cmd] is a pointer in the source and [None] stands for [nil];
    [cancel] names the context it cancels. *)
Record ServerProcess := mkServerProcess {
  cmd : option ExecCmd;
  cancel : nat
}.

(** The two kinds of goroutine the supervisor starts and never joins. *)
Inductive Task :=
| StreamRead (source : string) (level : LogLevel) (is_stderr : bool) (pid : Z)
| WaitExit (pid : Z).

(** What the supervisor did to the outside world, in order. *)
Inductive Event :=
| EvRun (name : string) (args : list string)
| EvSpawn (name : string) (args : list string) (pid : Z)
| EvKill (pid : Z) (sig : Signal)
| EvSleep (ms : Z)
| EvCancel (ctx : nat)
| EvGo (t : Task).

Global Instance Signal_eq_dec : EqDecision Signal.
Proof. solve_decision. Defined.
Global Instance Task_eq_dec : EqDecision Task.
Proof. solve_decision. Defined.
Global Instance Event_eq_dec : EqDecision Event.
Proof. solve_decision. Defined.

(** The PIDs of the children spawned in a trace. *)
Definition spawned (t : list Event) : list Z :=
  omap (λ e, match e with EvSpawn _ _ pid => Some pid | _ => None end) t.

(** The [make] targets built in a trace. *)
Definition builds (t : list Event) : list (list string) :=
  omap (λ e, match e with
             | EvRun name args =>
                 if decide (name = "make") then Some args else None
             | _ => None
             end) t.

(** The signals sent in a trace. *)
Definition signals (t : list Event) : list (Z * Signal) :=
  omap (λ e, match e with EvKill pid sig => Some (pid, sig) | _ => None end) t.

Section Supervisor.

Context `{OSModel}.

(** The process-wide state: the operating system, [globalLogger],
    [currentServer], the trace so far and the number of contexts made. *)
Record World := mkWorld {
  w_os : OS;
  w_logger : Logger;
  currentServer : option ServerProcess;
  w_trace : list Event;
  w_ctxs : nat
}.

Definition M (A : Type) : Type := World → A * World.

Definition ret {A} (a : A) : M A := λ w, (a, w).

Definition bind {A B} (c : M A) (k : A → M B) : M B :=
  λ w, let (a, w') := c w in k a w'.

Local Notation "'let*' x ':=' c 'in' k" := (bind c (λ x, k))
  (at level 10, x name, c at level 100, k at level 200, only parsing).
Local Notation "c '*>' k" := (bind c (λ _, k))
  (at level 100, k at level 200, right associativity, only parsing).

Definition emit (e : Event) : M unit :=
  λ w, (tt, mkWorld (w_os w) (w_logger w) (currentServer w)
                    (w_trace w ++ [e]) (w_ctxs w)).

(** Lift a call into the operating system. *)
Definition sys {A} (f : OS → A * OS) : M A :=
  λ w, let (a, o) := f (w_os w) in
       (a, mkWorld o (w_logger w) (currentServer w) (w_trace w) (w_ctxs w)).

(** [GetLogger().Log(level, source, message)] *)
Definition logMsg (level : LogLevel) (source message : string) : M unit :=
  λ w, (tt, mkWorld (w_os w)
                    (Log (os_now (w_os w)) level source message (w_logger w))
                    (currentServer w) (w_trace w) (w_ctxs w)).

Definition setCurrentServer (s : option ServerProcess) : M unit :=
  λ w, (tt, mkWorld (w_os w) (w_logger w) s (w_trace w) (w_ctxs w)).

Definition getCurrentServer : M (option ServerProcess) :=
  λ w, (currentServer w, w).

(** [context.WithCancel(context.Background())] *)
Definition withCancel : M nat :=
  λ w, (w_ctxs w, mkWorld (w_os w) (w_logger w) (currentServer w)
                          (w_trace w) (S (w_ctxs w))).

Definition run (name : string) (args : list string) : M CmdResult :=
  let* r := sys (os_run name args) in
  emit (EvRun name args) *> ret r.

Definition kill (pid : Z) (sig : Signal) : M (option error) :=
  emit (EvKill pid sig) *> sys (os_kill pid sig).

Definition sleep (ms : Z) : M unit :=
  emit (EvSleep ms) *> sys (λ o, (tt, os_sleep ms o)).

(** [isPortInUse] *)
Definition isPortInUse (port : Z) : M bool :=
  let* r := run "lsof" ["-i"; ":" +:+ Itoa port] in
  ret (bool_decide (err r = None)).

(** [getProcessByPort] *)
Definition getProcessByPort (port : Z) : M Z :=
  let* r := run "lsof" ["-ti"; ":" +:+ Itoa port] in
  match err r with
  | Some _ => ret 0
  | None =>
      let pidStr := TrimSpace (stdout r) in
      if decide (pidStr = "") then ret 0
      else match Atoi pidStr with
           | None => ret 0
           | Some pid => ret pid
           end
  end.

(** [checkServerStatus] *)
Definition checkServerStatus (m : DashboardModel) : M ServerStatusMsg :=
  let port := Port (server m) in
  let* inUse := isPortInUse port in
  if inUse then
    let* pid := getProcessByPort port in
    ret (mkStatusMsg ServerRunning pid None)
  else ret (mkStatusMsg ServerStopped 0 None).

(** The common shape of the failure exits of [startServer]. *)
Definition failStart (ctx : nat) (what : string) (e : error)
    : M ServerStatusMsg :=
  emit (EvCancel ctx) *>
  logMsg LogError "cli" ("Failed to " +:+ what +:+ ": " +:+ e) *>
  ret (mkStatusMsg ServerStopped 0
                   (Some ("failed to " +:+ what +:+ ": " +:+ e))).

(** [startServer] *)
Definition startServer (m : DashboardModel) : M ServerStatusMsg :=
  let port := Port (server m) in
  let* inUse := isPortInUse port in
  if inUse then
    let* pid := getProcessByPort port in
    ret (mkStatusMsg ServerRunning pid None)
  else
    let* ctx := withCancel in
    logMsg LogSystem "cli" "Building WASM..." *>
    let* b1 := run "make" ["wasm"] in
    match err b1 with
    | Some e => failStart ctx "build WASM" e
    | None =>
    logMsg LogSystem "cli" "WASM build completed" *>
    logMsg LogSystem "cli" "Building server..." *>
    let* b2 := run "make" ["server"] in
    match err b2 with
    | Some e => failStart ctx "build server" e
    | None =>
    logMsg LogSystem "cli" "Server build completed" *>
    logMsg LogSystem "cli" ("Starting server on port " +:+ Itoa port) *>
    let args := ["-dev"; "-port"; Itoa port] in
    let* p1 := sys os_pipe in
    match p1 with
    | Some e => failStart ctx "create stdout pipe" e
    | None =>
    let* p2 := sys os_pipe in
    match p2 with
    | Some e => failStart ctx "create stderr pipe" e
    | None =>
    let* st := sys (os_start "./bin/server" args) in
    match st with
    | inl e => failStart ctx "start server" e
    | inr pid =>
    emit (EvSpawn "./bin/server" args pid) *>
    logMsg LogSystem "cli" ("Server started with PID " +:+ Itoa pid) *>
    emit (EvGo (StreamRead "server" LogInfo false pid)) *>
    emit (EvGo (StreamRead "server" LogError true pid)) *>
    setCurrentServer
      (Some (mkServerProcess
               (Some (mkExecCmd "./bin/server" args (Some pid))) ctx)) *>
    sleep 500 *>
    logMsg LogSystem "cli" "Server startup completed" *>
    ret (mkStatusMsg ServerRunning pid None)
    end end end end end.

(** What [cancel()] sets off for a command that was started.  The child is
    made with [exec.CommandContext(ctx, ...)], so [cmd.Start] leaves a
    goroutine of os/exec watching [ctx]; once [ctx] is cancelled it calls
    [cmd.Process.Kill()], which sends SIGKILL to the child itself and drops
    the error.  That goroutine runs beside the caller of [cancel()]: the
    model lets it act where [contextKill] stands in the caller.  Before
    [cmd.Start] has succeeded there is no such goroutine, and [cancel()]
    reaches no process. *)
Definition contextKill (pid : Z) : M unit :=
  kill pid SIGKILL *> ret tt.

(** [stopServer].  The watcher woken by [cancel()] is let run when the held
    branch has handed the wait to its goroutine, after the branch's own
    signal. *)
Definition stopServer (m : DashboardModel) : M ServerStatusMsg :=
  let* cur := getCurrentServer in
  match cur with
  | Some sp =>
      logMsg LogSystem "cli" "Stopping server..." *>
      emit (EvCancel (cancel sp)) *>
      match cmd sp ≫= Process with
      | Some pid =>
          logMsg LogSystem "cli"
                 ("Terminating server process " +:+ Itoa pid) *>
          let* g := sys (os_getpgid pid) in
          match g with
          | inr pgid => kill (- pgid) SIGTERM *> ret tt
          | inl _ => ret tt
          end *>
          emit (EvGo (WaitExit pid)) *>
          contextKill pid
      | None => ret tt
      end *>
      setCurrentServer None
  | None =>
      logMsg LogSystem "cli" "No active server process, checking port..." *>
      let port := Port (server m) in
      let* pid := getProcessByPort port in
      if 0 <? pid then
        logMsg LogSystem "cli"
               ("Found process " +:+ Itoa pid +:+ " on port " +:+ Itoa port
                +:+ ", terminating") *>
        let* e := kill pid SIGTERM in
        match e with
        | Some _ =>
            logMsg LogWarning "cli" "SIGTERM failed, using SIGKILL" *>
            kill pid SIGKILL *> ret tt
        | None => ret tt
        end
      else logMsg LogSystem "cli" "No process found on port"
  end *>
  logMsg LogSystem "cli" "Server stopped" *>
  ret (mkStatusMsg ServerStopped 0 None).

(** [restartServer]: the message [stopServer] returns is dropped. *)
Definition restartServer (m : DashboardModel) : M ServerStatusMsg :=
  logMsg LogSystem "cli" "Restarting server..." *>
  stopServer m *>
  logMsg LogSystem "cli" "Waiting for cleanup..." *>
  sleep 2000 *>
  logMsg LogSystem "cli" "Starting server again..." *>
  startServer m.

(** [NewDashboardModel], with the configured [server.port] passed in. *)
Definition NewDashboardModel (port : Z) : M DashboardModel :=
  logMsg LogSystem "cli" "Dashboard started" *>
  let* now := sys (λ o, (os_now o, o)) in
  ret {| server := mkServerInfo ServerStopped port 0 0;
         requests := [];
         logs := [];
         selectedTab := 0;
         tabs := ["Server"; "Requests"; "Logs"];
         width := 0;
         height := 0;
         startTime := Some now;
         keyMap := DefaultKeyMap;
         lastError := "";
         showError := false |}.

(** A [tea.Cmd] is a [func() tea.Msg]: the one value it returns is all
    that the Bubble Tea runtime hands to [Update]. *)
Definition delivered (c : M ServerStatusMsg) (w : World)
    : list ServerStatusMsg :=
  [fst (c w)].

End Supervisor.

(** ** The controller *)

Inductive Msg :=
| WindowSizeMsg (w h : Z)
| KeyMsg (k : string)
| tickMsg (t : Time)
| StatusMsg (s : ServerStatusMsg)
| RequestLogsMsg (rs : list RequestLog)
| LogsUpdatedMsg (ls : list LogEntry)
| OtherMsg.

(** The commands [Update] hands back; each closes over the model it was
    made from. *)
#[warnings="-register-all"]
Inductive Cmd :=
| CmdNil
| CmdQuit
| CmdStartServer (m : DashboardModel)
| CmdStopServer (m : DashboardModel)
| CmdRestartServer (m : DashboardModel)
| CmdCheckServerStatus (m : DashboardModel)
| CmdLoadRequestLogs (m : DashboardModel)
| CmdLoadSystemLogs (m : DashboardModel)
| CmdTick
| CmdBatch (cs : list Cmd).

(** [key.Matches] for a binding that is enabled. *)
Definition Matches (k : string) (binding : list string) : bool :=
  bool_decide (k ∈ binding).

Definition setServer (s : ServerInfo) (m : DashboardModel) : DashboardModel :=
  mkDashboardModel s (requests m) (logs m) (selectedTab m) (tabs m)
    (width m) (height m) (startTime m) (keyMap m) (lastError m) (showError m).

Definition setStartTime (t : option Time) (m : DashboardModel)
    : DashboardModel :=
  mkDashboardModel (server m) (requests m) (logs m) (selectedTab m) (tabs m)
    (width m) (height m) t (keyMap m) (lastError m) (showError m).

Definition setSelectedTab (i : Z) (m : DashboardModel) : DashboardModel :=
  mkDashboardModel (server m) (requests m) (logs m) i (tabs m)
    (width m) (height m) (startTime m) (keyMap m) (lastError m) (showError m).

Definition setError (e : string) (shown : bool) (m : DashboardModel)
    : DashboardModel :=
  mkDashboardModel (server m) (requests m) (logs m) (selectedTab m) (tabs m)
    (width m) (height m) (startTime m) (keyMap m) e shown.

(** [updateUptime] has a value receiver: it works on a copy of the model,
    which is what this function returns. *)
Definition updateUptime (now : Time) (m : DashboardModel) : DashboardModel :=
  match Status (server m), startTime m with
  | ServerRunning, Some t0 =>
      setServer (mkServerInfo (Status (server m)) (Port (server m))
                              (PID (server m)) (now - t0)) m
  | _, _ => m
  end.

(** The [ServerStatusMsg] case of [Update]. *)
Definition applyStatus (now : Time) (s : ServerStatusMsg) (m : DashboardModel)
    : DashboardModel :=
  let m := setServer (mkServerInfo (msg_Status s) (Port (server m)) (msg_PID s)
                                   (Uptime (server m))) m in
  let m := match msg_Error s with
           | Some e => setError e true m
           | None => setError (lastError m) false m
           end in
  let m := match msg_Status s, startTime m with
           | ServerRunning, None => setStartTime (Some now) m
           | _, _ => m
           end in
  match msg_Status s with
  | ServerStopped =>
      setServer (mkServerInfo (Status (server m)) (Port (server m))
                              (PID (server m)) 0)
                (setStartTime None m)
  | _ => m
  end.

(** The [tea.KeyMsg] case of [Update]; the cases of Go's [switch] are tried
    in order.  The tab arithmetic is Go's [%], which truncates; [tabs] is
    never empty in a model made by [NewDashboardModel]. *)
Definition updateKey (k : string) (m : DashboardModel) : DashboardModel * Cmd :=
  let km := keyMap m in
  let n := Z.of_nat (length (tabs m)) in
  if Matches k (km_Quit km) then (m, CmdQuit)
  else if Matches k (km_Start km) then
    if decide (Status (server m) = ServerStopped)
    then (m, CmdStartServer m) else (m, CmdNil)
  else if Matches k (km_Stop km) then
    if decide (Status (server m) = ServerRunning)
    then (m, CmdStopServer m) else (m, CmdNil)
  else if Matches k (km_Restart km) then
    if decide (Status (server m) = ServerRunning)
    then (m, CmdRestartServer m) else (m, CmdNil)
  else if Matches k (km_NextTab km) then
    (setSelectedTab (Z.rem (selectedTab m + 1) n) m, CmdNil)
  else if Matches k (km_PrevTab km) then
    (setSelectedTab (Z.rem (selectedTab m - 1 + n) n) m, CmdNil)
  else if Matches k (km_Refresh km) then (m, CmdCheckServerStatus m)
  else if Matches k (km_Clear km) then (setError "" false m, CmdNil)
  else (m, CmdNil).

(** [Update], with the clock reading of the moment passed in as [now]. *)
Definition Update (now : Time) (m : DashboardModel) (msg : Msg)
    : DashboardModel * Cmd :=
  match msg with
  | WindowSizeMsg w h =>
      (mkDashboardModel (server m) (requests m) (logs m) (selectedTab m)
         (tabs m) w h (startTime m) (keyMap m) (lastError m) (showError m),
       CmdNil)
  | KeyMsg k => updateKey k m
  | tickMsg _ =>
      let _ := updateUptime now m in
      (m, CmdBatch [CmdCheckServerStatus m; CmdLoadRequestLogs m;
                    CmdLoadSystemLogs m; CmdTick])
  | StatusMsg s => (applyStatus now s m, CmdNil)
  | RequestLogsMsg rs =>
      (mkDashboardModel (server m) rs (logs m) (selectedTab m) (tabs m)
         (width m) (height m) (startTime m) (keyMap m) (lastError m)
         (showError m), CmdNil)
  | LogsUpdatedMsg ls =>
      (mkDashboardModel (server m) (requests m) ls (selectedTab m) (tabs m)
         (width m) (height m) (startTime m) (keyMap m) (lastError m)
         (showError m), CmdNil)
  | OtherMsg => (m, CmdNil)
  end.

(** The model after a sequence of messages, each with the clock reading at
    which it is processed. *)
Definition runUpdates (m : DashboardModel) (msgs : list (Time * Msg))
    : DashboardModel :=
  foldl (λ m tm, fst (Update (fst tm) m (snd tm))) m msgs.

(** The error box of [View].  As long as [width] is 0, which it is until the
    first [tea.WindowSizeMsg], [View] returns "Initializing..." and nothing
    else; after that it puts the error box on the screen exactly when
    [showError] is set, and the box holds [lastError]. *)
Definition displayedError (m : DashboardModel) : option string :=
  if decide (width m = 0) then None
  else if showError m then Some (lastError m) else None.

(** ** A small operating system to run the model on

    One port, a list of the PIDs holding it, [make] targets that fail, and a
    counter for fresh PIDs.  A spawned child binds the port at once; a signal
    takes its target (a process, or for a negative argument its group) off
    the port. *)

Record Sim := mkSim {
  sim_clock : Time;
  sim_listeners : list Z;
  sim_failing : list string;
  sim_next_pid : Z;
  sim_groups : bool
}.

Definition unlines (ls : list string) : string :=
  foldr (λ l acc, l +:+ String (Strings.byte 10) acc) "" ls.

Definition sim_run (name : string) (args : list string) (o : Sim)
    : CmdResult * Sim :=
  if decide (name = "lsof") then
    match sim_listeners o with
    | [] => (mkCmdResult "" (Some "exit status 1"), o)
    | ps =>
        if decide (head args = Some "-ti")
        then (mkCmdResult (unlines (Itoa <$> ps)) None, o)
        else (mkCmdResult
                (unlines ((λ p, "server " +:+ Itoa p +:+ " (LISTEN)") <$> ps))
                None, o)
    end
  else if decide (name = "make") then
    if decide (Exists (λ t, t ∈ sim_failing o) args)
    then (mkCmdResult "" (Some "exit status 2"), o)
    else (mkCmdResult "" None, o)
  else (mkCmdResult "" (Some "executable file not found in $PATH"), o).

Definition sim_start (name : string) (args : list string) (o : Sim)
    : (error + Z) * Sim :=
  (inr (sim_next_pid o),
   mkSim (sim_clock o) [sim_next_pid o] (sim_failing o) (sim_next_pid o + 1)
         (sim_groups o)).

Definition sim_getpgid (pid : Z) (o : Sim) : (error + Z) * Sim :=
  if sim_groups o then (inr pid, o) else (inl "no such process", o).

Definition sim_kill (pid : Z) (sig : Signal) (o : Sim) : option error * Sim :=
  (None,
   mkSim (sim_clock o) (filter (λ p, p ≠ Z.abs pid) (sim_listeners o))
         (sim_failing o) (sim_next_pid o) (sim_groups o)).

Definition sim_sleep (ms : Z) (o : Sim) : Sim :=
  mkSim (sim_clock o + ms) (sim_listeners o) (sim_failing o) (sim_next_pid o)
        (sim_groups o).

Definition simOS : OSModel :=
  {| OS := Sim;
     os_now := sim_clock;
     os_run := sim_run;
     os_pipe := λ o, (None, o);
     os_start := sim_start;
     os_getpgid := sim_getpgid;
     os_kill := sim_kill;
     os_sleep := sim_sleep |}.

(** The world at program start on a given system. *)
Definition initWorld `{OSModel} (o : OS) : World :=
  mkWorld o newLogger None [] 0.

(** The model the dashboard starts from, for port 8080. *)
Definition model8080 : DashboardModel :=
  {| server := mkServerInfo ServerStopped 8080 0 0;
     requests := [];
     logs := [];
     selectedTab := 0;
     tabs := ["Server"; "Requests"; "Logs"];
     width := 0;
     height := 0;
     startTime := Some 0;
     keyMap := DefaultKeyMap;
     lastError := "";
     showError := false |}.

(** A free port, and builds that work. *)
Definition simFree : Sim := mkSim 0 [] [] 4242 true.

(** A free port, and a WASM build that fails. *)
Definition simBrokenWasm : Sim := mkSim 0 [] ["wasm"] 4242 true.

(** The port held by one process that the supervisor did not start. *)
Definition simExternal : Sim := mkSim 0 [777] [] 4242 true.

(** The port shared by two processes. *)
Definition simShared : Sim := mkSim 0 [4242; 4243] [] 4244 true.

(** A world in which the supervisor holds the child 4242 it spawned. *)
Definition heldWorld (o : Sim) : @World simOS :=
  @mkWorld simOS o newLogger
    (Some (mkServerProcess
             (Some (mkExecCmd "./bin/server" ["-dev"; "-port"; "8080"]
                              (Some 4242))) 0))
    [] 1.

(** ** Vocabulary for the statements *)

(** A socket listing that gave Go an error: [lsof] exits with status 1 when
    it has nothing to list, and [exec] reports every non-zero exit status,
    like every failure to run the command at all, as a non-nil error. *)
Definition lookupFailed (r : CmdResult) : Prop := is_Some (err r).

(** A log entry records a failure when the text of the error occurs in its
    message. *)
Definition recordsFailure (e : error) (entry : LogEntry) : Prop :=
  is_Some (String.index 0 e (Message entry)).

(** The two ways in which [startServer] can end. *)
Definition startAnswer (r : ServerStatusMsg) : Prop :=
  (msg_Status r = ServerRunning ∧ msg_Error r = None) ∨
  (msg_Status r = ServerStopped ∧ msg_PID r = 0 ∧ is_Some (msg_Error r)).

(** The command line of [lsof] for a port, after the flag. *)
Definition lsofArgs (flag : string) (port : Z) : list string :=
  [flag; ":" +:+ Itoa port].

(** What [getProcessByPort] makes of a finished [lsof -ti]. *)
Definition pidOf (r : CmdResult) : Z :=
  match err r with
  | Some _ => 0
  | None => if decide (TrimSpace (stdout r) = "") then 0
            else default 0 (Atoi (TrimSpace (stdout r)))
  end.

Section Sequences.

Context `{OSModel}.

(** The rest of the system acting between two commands. *)
Definition setOS (o : OS) (w : World) : World :=
  mkWorld o (w_logger w) (currentServer w) (w_trace w) (w_ctxs w).

(** [startsWhileRunning m w w']: from [w], any number of calls of
    [startServer], each issued at a moment at which [checkServerStatus]
    reports [ServerRunning], with the rest of the system free to change
    between them, lead to [w']. *)
Inductive startsWhileRunning (m : DashboardModel) : World → World → Prop :=
| swr_done w : startsWhileRunning m w w
| swr_env w o w' :
    startsWhileRunning m (setOS o w) w' → startsWhileRunning m w w'
| swr_start w w' :
    msg_Status (fst (checkServerStatus m w)) = ServerRunning →
    startsWhileRunning m (snd (startServer m w)) w' →
    startsWhileRunning m w w'.

(** What a stop has logged once it found a held process and its PID. *)
Definition stopLogHeld (o : OS) (pid : Z) (l : Logger) : Logger :=
  Log (os_now o) LogSystem "cli" ("Terminating server process " +:+ Itoa pid)
    (Log (os_now o) LogSystem "cli" "Stopping server..." l).

(** What a stop has logged once it found nothing held and then PID [pid]
    on the port. *)
Definition stopLogFound (o0 o : OS) (port pid : Z) (l : Logger) : Logger :=
  Log (os_now o) LogSystem "cli"
      ("Found process " +:+ Itoa pid +:+ " on port " +:+ Itoa port
       +:+ ", terminating")
    (Log (os_now o0) LogSystem "cli"
         "No active server process, checking port..." l).

End Sequences.

(** The key reaches the clear-error case of [updateKey]. *)
Definition isClearKey (km : KeyMap) (k : string) : bool :=
  negb (Matches k (km_Quit km)) && negb (Matches k (km_Start km))
  && negb (Matches k (km_Stop km)) && negb (Matches k (km_Restart km))
  && negb (Matches k (km_NextTab km)) && negb (Matches k (km_PrevTab km))
  && negb (Matches k (km_Refresh km)) && Matches k (km_Clear km).

(** The messages that touch the error slot: the clear-error key and every
    [ServerStatusMsg]. *)
Definition touchesError (km : KeyMap) (msg : Msg) : bool :=
  match msg with
  | StatusMsg _ => true
  | KeyMsg k => isClearKey km k
  | _ => false
  end.

(** A window-size message that reports width 0, after which [View] is back
    to "Initializing...". *)
Definition zeroWidth (msg : Msg) : bool :=
  match msg with
  | WindowSizeMsg w _ => bool_decide (w = 0)
  | _ => false
  end.

(** The model for port 8080 once the terminal has reported its size. *)
Definition sized8080 : DashboardModel :=
  fst (Update 0 model8080 (WindowSizeMsg 80 24)).

(** 600 lines of server output, each logged at its own instant. *)
Definition manyCalls : list LogCall :=
  (λ i, mkLogCall (Z.of_nat i) LogInfo "server" "  GET /index.html 200  ")
    <$> seq 0 600.

(** A buffer with entries of two sources. *)
Definition mixedLogger : Logger :=
  logAll [mkLogCall 1 LogSystem "cli" "Building WASM...";
          mkLogCall 2 LogInfo "server" "listening on :8080";
          mkLogCall 3 LogSystem "cli" "Server startup completed";
          mkLogCall 4 LogError "server" "  bind: address already in use ";
          mkLogCall 5 LogInfo "server" "GET / 200"] newLogger.

(** ** The rest of the package *)

(** *** The output relay *)

(** [StreamReader]; its [logger] field always points to [globalLogger],
    whose state [Read] is handed and hands back. *)
Record StreamReader := mkStreamReader {
  sr_source : string;
  sr_level : LogLevel
}.

Definition NewStreamReader (source : string) (level : LogLevel)
    : StreamReader :=
  mkStreamReader source level.

(** [(sr *StreamReader) Read], over the lines the [bufio.Scanner] yields
    until the stream ends, each with the clock reading at which it is
    handled. *)
Definition Read (sr : StreamReader) (scanned : list (Time * string))
    (l : Logger) : Logger :=
  foldl (λ l tl,
           if decide (TrimSpace (snd tl) = "") then l
           else Log (fst tl) (sr_level sr) (sr_source sr) (snd tl) l)
        l scanned.

(** The calls of [Log] that [Read] makes. *)
Definition relayCalls (sr : StreamReader) (scanned : list (Time * string))
    : list LogCall :=
  (λ tl, mkLogCall (fst tl) (sr_level sr) (sr_source sr) (snd tl))
    <$> filter (λ tl, TrimSpace (snd tl) ≠ "") scanned.

(** *** What the tabs show *)

(** The slice [recentLogs] of [renderLogsTab]: the last 20 of [m.logs]. *)
Definition logsTabRows (m : DashboardModel) : list LogEntry :=
  let n := Z.of_nat (length (logs m)) in
  if 20 <? n then drop (Z.to_nat (n - 20)) (logs m) else logs m.

(** Go's [s[:n]] for [n] within the string. *)
Definition sliceTo (n : nat) (s : string) : string := String.substring 0 n s.

(** The message cell of a row of [renderLogsTab]. *)
Definition messageCell (log : LogEntry) : string :=
  if 45 <? Z.of_nat (String.length (Message log))
  then sliceTo 42 (Message log) +:+ "..."
  else Message log.

(** The slice [recentReqs] of [renderRequestsTab]: the last 15 of
    [m.requests]. *)
Definition requestsTabRows (m : DashboardModel) : list RequestLog :=
  let n := Z.of_nat (length (requests m)) in
  if 15 <? n then drop (Z.to_nat (n - 15)) (requests m) else requests m.

(** The path cell of a row of [renderRequestsTab]. *)
Definition pathCell (req : RequestLog) : string :=
  if 24 <? Z.of_nat (String.length (req_Path req))
  then sliceTo 21 (req_Path req) +:+ "..."
  else req_Path req.

(** The key reaches the next-tab case of [updateKey]. *)
Definition isNextTabKey (km : KeyMap) (k : string) : bool :=
  negb (Matches k (km_Quit km)) && negb (Matches k (km_Start km))
  && negb (Matches k (km_Stop km)) && negb (Matches k (km_Restart km))
  && Matches k (km_NextTab km).

(** The key reaches the previous-tab case of [updateKey]. *)
Definition isPrevTabKey (km : KeyMap) (k : string) : bool :=
  negb (Matches k (km_Quit km)) && negb (Matches k (km_Start km))
  && negb (Matches k (km_Stop km)) && negb (Matches k (km_Restart km))
  && negb (Matches k (km_NextTab km)) && Matches k (km_PrevTab km).

(** *** More commands *)

(** Where an error returned by [killProcessByPort] comes from: [cmd.Output],
    [strconv.Atoi] on the trimmed output, or the final [syscall.Kill]. *)
Inductive KillError :=
| ErrLookup (e : error)
| ErrParse (pidStr : string)
| ErrKill (e : error).

(** What reaches one of the two standard streams of a command: a line the
    command writes itself, or the output of a child process that was given
    that stream as its own, which never passes through the command. *)
Inductive Written :=
| Line (s : string)
| FromChild (name : string) (args : list string).

(** [os.Stdout] and [os.Stderr] of a command, oldest output first. *)
Record Terminal := mkTerminal {
  on_stdout : list Written;
  on_stderr : list Written
}.

(** [fmt.Println(s)] *)
Definition Println (s : string) (t : Terminal) : Terminal :=
  mkTerminal (on_stdout t ++ [Line s]) (on_stderr t).

(** [fmt.Fprintf(os.Stderr, ...)] of one line, [s] without its newline. *)
Definition Fprintf_Stderr (s : string) (t : Terminal) : Terminal :=
  mkTerminal (on_stdout t) (on_stderr t ++ [Line s]).

(** A child run with [cmd.Stdout = os.Stdout] and [cmd.Stderr = os.Stderr]. *)
Definition inherited (name : string) (args : list string) (t : Terminal)
    : Terminal :=
  mkTerminal (on_stdout t ++ [FromChild name args])
             (on_stderr t ++ [FromChild name args]).

(** The lines the command wrote itself. *)
Definition ownLines (l : list Written) : list string :=
  omap (λ x, match x with Line s => Some s | _ => None end) l.

(** The children whose output is on the stream. *)
Definition children (l : list Written) : list (list string) :=
  omap (λ x, match x with FromChild _ args => Some args | _ => None end) l.

(** The streams of a finished command and its exit status. *)
Record BuildOutcome := mkBuildOutcome {
  terminal : Terminal;
  exit_status : Z
}.

Section MoreCommands.

Context `{OSModel}.

Local Notation "'let*' x ':=' c 'in' k" := (bind c (λ x, k))
  (at level 10, x name, c at level 100, k at level 200, only parsing).
Local Notation "c '*>' k" := (bind c (λ _, k))
  (at level 100, k at level 200, right associativity, only parsing).

(** [loadSystemLogs] *)
Definition loadSystemLogs (m : DashboardModel) : M Msg :=
  λ w, (LogsUpdatedMsg (GetRecentLogs (w_logger w) 50), w).

(** [killProcessByPort] *)
Definition killProcessByPort (port : Z) : M (option KillError) :=
  let* r := run "lsof" ["-ti"; ":" +:+ Itoa port] in
  match err r with
  | Some e => ret (Some (ErrLookup e))
  | None =>
      let pidStr := TrimSpace (stdout r) in
      if decide (pidStr = "") then ret None
      else match Atoi pidStr with
           | None => ret (Some (ErrParse pidStr))
           | Some pid =>
               let* e := kill pid SIGTERM in
               match e with
               | Some _ =>
                   let* e' := kill pid SIGKILL in
                   ret (ErrKill <$> e')
               | None => ret None
               end
           end
  end.

(** [runMakeTarget]: [make] runs with the command's standard output and
    standard error as its own, so whatever it writes is on the terminal [t]
    when [Run] returns; the error of [Run] is the answer. *)
Definition runMakeTarget (target : string) (t : Terminal)
    : M (option error * Terminal) :=
  let* r := run "make" [target] in
  ret (err r, inherited "make" [target] t).

(** The [Run] function of [BuildCmd], for the values of the flags [--wasm]
    and [--server]: what is on its two streams when it ends, and the exit
    status, 1 from [os.Exit(1)] and 0 when [Run] returns. *)
Definition BuildCmd_Run (wasm server : bool) : M BuildOutcome :=
  let both := negb wasm && negb server in
  let wasm := wasm || both in
  let server := server || both in
  let t0 := mkTerminal [] [] in
  let* r1 := (if wasm
              then runMakeTarget "wasm" (Println "Building WASM..." t0)
              else ret (None, t0)) in
  match fst r1 with
  | Some e =>
      ret (mkBuildOutcome
             (Fprintf_Stderr ("Error building WASM: " +:+ e) (snd r1)) 1)
  | None =>
      let* r2 := (if server
                  then runMakeTarget "server"
                         (Println "Building server..." (snd r1))
                  else ret (None, snd r1)) in
      match fst r2 with
      | Some e =>
          ret (mkBuildOutcome
                 (Fprintf_Stderr ("Error building server: " +:+ e) (snd r2))
                 1)
      | None => ret (mkBuildOutcome (Println "Build complete!" (snd r2)) 0)
      end
  end.

(** How a failed start leaves the world: nothing spawned, no signal sent,
    the held process untouched, the context of the attempt cancelled last
    and the failure as the newest log entry, at error level. *)
Definition failedStart (w : World) (r : ServerStatusMsg) (w' : World) : Prop :=
  ∃ what e evs t,
    r = mkStatusMsg ServerStopped 0
          (Some ("failed to " +:+ what +:+ ": " +:+ e)) ∧
    w_trace w' = w_trace w ++ evs ++ [EvCancel (w_ctxs w)] ∧
    spawned evs = [] ∧ signals evs = [] ∧
    currentServer w' = currentServer w ∧
    last (entries (w_logger w')) =
      Some (mkLogEntry t LogError "cli"
              (TrimSpace ("Failed to " +:+ what +:+ ": " +:+ e))).

(** How a start that spawned leaves the world. *)
Definition spawnedStart (m : DashboardModel) (w : World)
    (r : ServerStatusMsg) (w' : World) : Prop :=
  ∃ pid,
    let args := ["-dev"; "-port"; Itoa (Port (server m))] in
    r = mkStatusMsg ServerRunning pid None ∧
    w_trace w' =
      w_trace w ++ [EvRun "lsof" (lsofArgs "-i" (Port (server m)));
                    EvRun "make" ["wasm"]; EvRun "make" ["server"];
                    EvSpawn "./bin/server" args pid;
                    EvGo (StreamRead "server" LogInfo false pid);
                    EvGo (StreamRead "server" LogError true pid);
                    EvSleep 500] ∧
    currentServer w' =
      Some (mkServerProcess (Some (mkExecCmd "./bin/server" args (Some pid)))
                            (w_ctxs w)).

End MoreCommands.

(** *** The request log *)

(** A 64-bit integer after overflow. *)
Definition wrap64 (z : Z) : Z := (z + 2 ^ 63) `mod` 2 ^ 64 - 2 ^ 63.

(** [time.Millisecond], in the nanoseconds a [time.Duration] counts. *)
Definition Millisecond : Z := 1000000.

(** [(d Duration) Milliseconds]: Go's integer division truncates. *)
Definition Milliseconds (d : Z) : Z := Z.quot d 1000000.

(** [strings.Split(s, "\n")] *)
Fixpoint SplitLines (s : string) : list string :=
  match s with
  | EmptyString => [EmptyString]
  | String c s' =>
      if Ascii.eqb c (Strings.byte 10) then EmptyString :: SplitLines s'
      else match SplitLines s' with
           | line :: lines => String c line :: lines
           | [] => [String c EmptyString]
           end
  end.

(** What became of reading [.local-first/requests.jsonl]. *)
Inductive FileRead :=
| FileMissing
| FileUnreadable (e : error)
| FileData (data : string).

(** The anonymous struct a line is decoded into; [raw_Duration] is the
    field [duration_ms]. *)
Record RawRequest := mkRawRequest {
  raw_Timestamp : Time;
  raw_Method : string;
  raw_Path : string;
  raw_Status : Z;
  raw_Duration : Z
}.

(** The [RequestLog] made of a decoded line; [req_Duration] counts
    nanoseconds. *)
Definition toRequestLog (raw : RawRequest) : RequestLog :=
  mkRequestLog (raw_Timestamp raw) (raw_Method raw) (raw_Path raw)
               (raw_Status raw) (wrap64 (raw_Duration raw * Millisecond)).

Section RequestLogs.

(** [json.Unmarshal] into the struct: [None] for a line it rejects. *)
Variable unmarshal : string → option RawRequest.

(** The body of the loop of [loadRequestLogs] for one line. *)
Definition parseLine (line : string) : option RequestLog :=
  let line := TrimSpace line in
  if decide (line = "") then None
  else toRequestLog <$> unmarshal line.

(** [loadRequestLogs] *)
Definition loadRequestLogs (m : DashboardModel) (file : FileRead) : Msg :=
  match file with
  | FileMissing => RequestLogsMsg []
  | FileUnreadable _ => RequestLogsMsg []
  | FileData data =>
      let lines := SplitLines data in
      let start := Z.of_nat (length lines) - 51 in
      let start := if start <? 0 then 0 else start in
      RequestLogsMsg (omap parseLine (drop (Z.to_nat start) lines))
  end.

End RequestLogs.

(** The status key of the summary of [renderRequestsTab]. *)
Definition statusClass (status : Z) : Z := Z.quot status 100 * 100.

(** The loop behind the summary line of [renderRequestsTab]: [totalMs] and
    [statusCounts].  A key that is not in a Go map reads as 0. *)
Definition summaryLoop (reqs : list RequestLog) : Z * gmap Z Z :=
  foldl (λ acc req,
           let k := statusClass (req_Status req) in
           (wrap64 (fst acc + Milliseconds (req_Duration req)),
            <[k := wrap64 (default 0 (snd acc !! k) + 1)]> (snd acc)))
        (0, ∅) reqs.

(** The numbers of the summary line of a model with requests: total,
    average, and the counts read at the keys 200, 300, 400 and 500. *)
Definition requestSummary (m : DashboardModel) : list Z :=
  let total := Z.of_nat (length (requests m)) in
  let acc := summaryLoop (requests m) in
  let count k := default 0 (snd acc !! k) in
  [total; Z.quot (fst acc) total; count 200; count 300; count 400; count 500].

(** A decoder for lines of the form [METHOD PATH], for trying things out. *)
Definition toyUnmarshal (line : string) : option RawRequest :=
  match String.index 0 " " line with
  | Some i =>
      Some (mkRawRequest 0 (String.substring 0 i line)
              (String.substring (S i) (String.length line - S i) line) 200 12)
  | None => None
  end.

(** A line holds no line feed. *)
Definition noNewline (line : string) : Prop :=
  Strings.byte 10 ∉ list_ascii_of_string line.

(** Requests with the given statuses, for trying things out. *)
Definition withStatuses (statuses : list Z) : DashboardModel :=
  mkDashboardModel (server model8080)
    ((λ s, mkRequestLog 0 "GET" "/" s 12000000) <$> statuses)
    [] 1 (tabs model8080) 80 24 (Some 0) DefaultKeyMap "" false.

(** * Theorems *)

(** ** The log sink *)

Section LoggerFacts.

Implicit Types (l : Logger) (cs : list LogCall) (limit : Z).

Lemma copy_same_length {A} (dst src : list A) :
  length dst = length src → copy dst src = src.
Proof.
  intros E. unfold copy.
  rewrite take_ge, drop_ge by lia. apply app_nil_r.
Qed.

Lemma GetRecentLogs_all l limit :
  limit ≤ 0 ∨ Z.of_nat (length (entries l)) < limit →
  GetRecentLogs l limit = entries l.
Proof.
  intros Hlim. unfold GetRecentLogs.
  replace ((limit <=? 0) || (Z.of_nat (length (entries l)) <? limit))
    with true by (symmetry; apply orb_true_iff; lia).
  destruct (Z.eqb_spec (Z.of_nat (length (entries l))) 0) as [E|E].
  - destruct (entries l); [done | simpl in E; lia].
  - rewrite Z.sub_diag. simpl. apply copy_same_length.
    rewrite length_replicate. lia.
Qed.

Lemma GetRecentLogs_last l limit :
  0 < limit ≤ Z.of_nat (length (entries l)) →
  GetRecentLogs l limit =
    drop (length (entries l) - Z.to_nat limit) (entries l).
Proof.
  intros Hlim. unfold GetRecentLogs.
  replace ((limit <=? 0) || (Z.of_nat (length (entries l)) <? limit))
    with false by (symmetry; apply orb_false_iff; lia).
  destruct (Z.eqb_spec limit 0) as [E|_]; [lia|].
  replace (Z.to_nat (Z.of_nat (length (entries l)) - limit))
    with (length (entries l) - Z.to_nat limit)%nat by lia.
  apply copy_same_length.
  rewrite length_replicate, length_drop. lia.
Qed.

(** Every answer of [GetRecentLogs] is a suffix of the buffer, and it is
    empty only if the buffer is. *)
Lemma GetRecentLogs_suffix l limit :
  ∃ k, (k < length (entries l) ∨ entries l = [])%nat ∧
       GetRecentLogs l limit = drop k (entries l).
Proof.
  destruct (decide (limit ≤ 0 ∨ Z.of_nat (length (entries l)) < limit))
    as [Hall|Hlast].
  - exists 0%nat. rewrite GetRecentLogs_all by done. split; [|done].
    destruct (entries l); simpl; [by right | left; lia].
  - exists (length (entries l) - Z.to_nat limit)%nat.
    rewrite GetRecentLogs_last by lia. split; [left; lia | done].
Qed.

Lemma entries_doLog l c :
  entries (doLog l c) =
    if decide (length (entries l) < 500)%nat
    then entries l ++ [entryOf c]
    else drop 1 (entries l ++ [entryOf c]).
Proof.
  unfold doLog, Log, entryOf. simpl. rewrite length_app. simpl.
  case_decide; destruct (Z.ltb_spec 500 (Z.of_nat (length (entries l) + 1)));
    (done || lia).
Qed.

(** The buffer never grows beyond 500 entries once it is within them. *)
Lemma length_entries_doLog l c :
  (length (entries l) ≤ 500 → length (entries (doLog l c)) ≤ 500)%nat.
Proof.
  intros Hl. rewrite entries_doLog.
  case_decide; rewrite ?length_drop, length_app; simpl; lia.
Qed.

(** After any run of calls the buffer holds the last 500 of what was in
    it and what was logged. *)
Lemma entries_logAll cs : ∀ l,
  (length (entries l) ≤ 500)%nat →
  entries (logAll cs l) =
    drop (length (entries l) + length cs - 500)
         (entries l ++ (entryOf <$> cs)).
Proof.
  induction cs as [|c cs IH]; intros l Hl; simpl.
  - rewrite app_nil_r. by replace (_ + 0 - 500)%nat with 0%nat by lia.
  - unfold logAll in *. simpl.
    rewrite IH by by apply length_entries_doLog.
    rewrite entries_doLog. case_decide as Hlt.
    + rewrite length_app, <- app_assoc. simpl. f_equal. lia.
    + destruct (entries l) as [|x es] eqn:Hes; simpl in *; [lia|].
      rewrite !drop_0, length_app, <- app_assoc. simpl.
      replace (length es + 1 + length cs - 500)%nat with (length cs) by lia.
      by replace (length es + S (length cs) - 499)%nat
        with (S (length cs)) by lia.
Qed.

End LoggerFacts.

(** C3.  After N calls of [Log] on a fresh logger the buffer is the last
    [min N 500] entries logged, oldest first.  So for N > 500,
    [GetRecentLogs 0] is exactly the 500 most recent entries in the order
    they were logged and [GetRecentLogs 10] exactly the last 10; for
    [0 < limit <= buffer size] the answer is exactly the [limit] most recent
    entries in that order; for [limit <= 0] or [limit] above the buffer size
    it is the whole buffer. *)
Theorem RecentEntries_after_logging (cs : list LogCall) :
  let l := logAll cs newLogger in
  let logged := entryOf <$> cs in
  let N := length cs in
  entries l = drop (N - 500) logged ∧
  ((500 < N)%nat →
     GetRecentLogs l 0 = drop (N - 500) logged ∧
     length (GetRecentLogs l 0) = 500%nat ∧
     GetRecentLogs l 10 = drop (N - 10) logged ∧
     length (GetRecentLogs l 10) = 10%nat) ∧
  (∀ limit, 0 < limit ≤ Z.of_nat (length (entries l)) →
     GetRecentLogs l limit = drop (N - Z.to_nat limit) logged ∧
     length (GetRecentLogs l limit) = Z.to_nat limit) ∧
  (∀ limit, limit ≤ 0 ∨ Z.of_nat (length (entries l)) < limit →
     GetRecentLogs l limit = entries l).
Proof.
  intros l logged N.
  assert (entries l = drop (N - 500) logged) as Hbuf.
  { subst l. rewrite entries_logAll by (simpl; lia). done. }
  assert (length logged = N) as HN by (subst logged; apply length_fmap).
  assert (length (entries l) = N `min` 500)%nat as Hlen
    by (rewrite Hbuf, length_drop; lia).
  assert (∀ limit, 0 < limit ≤ Z.of_nat (length (entries l)) →
     GetRecentLogs l limit = drop (N - Z.to_nat limit) logged ∧
     length (GetRecentLogs l limit) = Z.to_nat limit) as Hlast.
  { intros limit Hlim. rewrite GetRecentLogs_last by done.
    rewrite length_drop, Hlen. rewrite Hlen in Hlim.
    rewrite Hbuf, drop_drop. split; [f_equal|]; lia. }
  split; [done|]. split; [|split; [done|]].
  - intros Hbig. rewrite GetRecentLogs_all by lia.
    destruct (Hlast 10) as [-> ->]; [lia|].
    rewrite Hlen, <- Hbuf. split_and!; (done || lia).
  - intros limit Hlim. by apply GetRecentLogs_all.
Qed.

(** C7.  Whatever the buffer held and whatever the limit, the last entry
    [GetRecentLogs] returns right after [Log level source message] carries
    that level, that source and the trimmed message (and the clock reading
    of the call). *)
Theorem Log_then_RecentEntries_round_trip
    (now : Time) (level : LogLevel) (source message : string)
    (l : Logger) (limit : Z) :
  last (GetRecentLogs (Log now level source message l) limit) =
    Some (mkLogEntry now level source (TrimSpace message)).
Proof.
  set (e := mkLogEntry now level source (TrimSpace message)).
  assert (∃ pre, entries (Log now level source message l) = pre ++ [e])
    as [pre Hpre].
  { unfold Log. simpl. fold e.
    destruct (Z.ltb_spec 500 (Z.of_nat (length (entries l ++ [e])))) as [Hlt|_].
    - destruct (entries l) as [|x es]; simpl in *; [lia|]. by exists es.
    - by exists (entries l). }
  destruct (GetRecentLogs_suffix (Log now level source message l) limit)
    as (k & Hk & ->).
  rewrite Hpre in *. rewrite length_app in Hk. simpl in Hk.
  destruct Hk as [Hk|Hk]; [|by destruct pre].
  rewrite drop_app_le by lia. apply last_snoc.
Qed.

(** C9.  Every entry [GetLogsBySource] returns has exactly the source asked
    for; with a positive limit it returns at most [limit] entries, and they
    are the last [limit] of the matching entries of the buffer. *)
Theorem EntriesBySource_only_that_source
    (l : Logger) (source : string) (limit : Z) :
  let matching := filter (λ e, Source e = source) (entries l) in
  Forall (λ e, Source e = source) (GetLogsBySource l source limit) ∧
  (0 < limit →
     Z.of_nat (length (GetLogsBySource l source limit)) ≤ limit ∧
     GetLogsBySource l source limit =
       drop (length matching - Z.to_nat limit) matching).
Proof.
  intros matching. unfold GetLogsBySource. fold matching.
  assert (Forall (λ e, Source e = source) matching) as Hall.
  { apply Forall_forall. intros e He.
    by apply list_elem_of_filter in He as [? _]. }
  split.
  - destruct (_ && _); [by apply Forall_drop | done].
  - intros Hpos.
    destruct (Z.ltb_spec 0 limit); [|lia].
    destruct (Z.ltb_spec limit (Z.of_nat (length matching))); simpl.
    + rewrite length_drop. split; [lia | f_equal; lia].
    + split; [lia|].
      by replace (length matching - Z.to_nat limit)%nat with 0%nat by lia.
Qed.

Lemma RecentEntries_after_logging_witness :
  let l := logAll manyCalls newLogger in
  let logged := entryOf <$> manyCalls in
  GetRecentLogs l 0 = drop 100 logged ∧
  GetRecentLogs l 10 = drop 590 logged ∧
  GetRecentLogs l 7 = drop 593 logged ∧
  GetRecentLogs l 501 = entries l.
Proof.
  intros l logged.
  destruct (RecentEntries_after_logging manyCalls)
    as (_ & Hbig & Hlast & Hall).
  destruct Hbig as (H0 & _ & H10 & _); [vm_compute; lia|].
  destruct (Hlast 7) as [H7 _]; [vm_compute; split; congruence|].
  split_and!; [exact H0 | exact H10 | exact H7 |].
  apply Hall. right. vm_compute. reflexivity.
Defined.

Lemma EntriesBySource_only_that_source_witness :
  Forall (λ e, Source e = "server")
         (GetLogsBySource mixedLogger "server" 2) ∧
  Z.of_nat (length (GetLogsBySource mixedLogger "server" 2)) ≤ 2 ∧
  GetLogsBySource mixedLogger "server" 2 =
    [mkLogEntry 4 LogError "server" "bind: address already in use";
     mkLogEntry 5 LogInfo "server" "GET / 200"].
Proof.
  destruct (EntriesBySource_only_that_source mixedLogger "server" 2)
    as [Hsrc Hlim].
  destruct Hlim as [Hlen Heq]; [lia|].
  split_and!; [exact Hsrc | exact Hlen |].
  rewrite Heq. vm_compute. reflexivity.
Defined.

(** ** The port inspector and the supervisor *)

Section SupervisorFacts.

Context `{OSModel}.

Implicit Types (w : World) (m : DashboardModel) (port : Z).

Lemma isPortInUse_unfold port w :
  isPortInUse port w =
    let r := os_run "lsof" (lsofArgs "-i" port) (w_os w) in
    (bool_decide (err (fst r) = None),
     mkWorld (snd r) (w_logger w) (currentServer w)
             (w_trace w ++ [EvRun "lsof" (lsofArgs "-i" port)]) (w_ctxs w)).
Proof.
  unfold isPortInUse, run, bind, sys, emit, ret, lsofArgs. simpl.
  by destruct (os_run _ _ _).
Qed.

Lemma getProcessByPort_unfold port w :
  getProcessByPort port w =
    let r := os_run "lsof" (lsofArgs "-ti" port) (w_os w) in
    (pidOf (fst r),
     mkWorld (snd r) (w_logger w) (currentServer w)
             (w_trace w ++ [EvRun "lsof" (lsofArgs "-ti" port)]) (w_ctxs w)).
Proof.
  unfold getProcessByPort, pidOf, run, bind, sys, emit, ret, lsofArgs. simpl.
  destruct (os_run _ _ _) as [[out [e|]] o]; simpl; [done|].
  case_decide; [done|]. by destruct (Atoi _).
Qed.

Lemma checkServerStatus_unfold m w :
  checkServerStatus m w =
    let p := isPortInUse (Port (server m)) w in
    if fst p then
      let q := getProcessByPort (Port (server m)) (snd p) in
      (mkStatusMsg ServerRunning (fst q) None, snd q)
    else (mkStatusMsg ServerStopped 0 None, snd p).
Proof.
  unfold checkServerStatus, bind, ret.
  destruct (isPortInUse _ w) as [[|] w1]; simpl; [|done].
  by destruct (getProcessByPort _ w1).
Qed.

Lemma startServer_occupied m w :
  fst (isPortInUse (Port (server m)) w) = true →
  startServer m w =
    let q := getProcessByPort (Port (server m))
                              (snd (isPortInUse (Port (server m)) w)) in
    (mkStatusMsg ServerRunning (fst q) None, snd q).
Proof.
  intros Hocc. unfold startServer. unfold bind at 1.
  destruct (isPortInUse _ w) as [b w1]. simpl in *. subst b.
  unfold bind, ret. by destruct (getProcessByPort _ w1).
Qed.

(** The status check says [ServerRunning] exactly when the port is in
    use. *)
Lemma checkServerStatus_Running m w :
  msg_Status (fst (checkServerStatus m w)) = ServerRunning ↔
  fst (isPortInUse (Port (server m)) w) = true.
Proof.
  rewrite checkServerStatus_unfold. simpl.
  destruct (fst (isPortInUse _ w)); simpl; split; (done || congruence).
Qed.

(** All that [startServer] does on a port in use. *)
Lemma startServer_occupied_effects m w :
  fst (isPortInUse (Port (server m)) w) = true →
  let port := Port (server m) in
  let w' := snd (startServer m w) in
  fst (startServer m w) =
    mkStatusMsg ServerRunning
      (fst (getProcessByPort port (snd (isPortInUse port w)))) None ∧
  w_trace w' = w_trace w ++ [EvRun "lsof" (lsofArgs "-i" port);
                             EvRun "lsof" (lsofArgs "-ti" port)] ∧
  currentServer w' = currentServer w ∧
  w_logger w' = w_logger w.
Proof.
  intros Hocc port w'. subst w'.
  rewrite startServer_occupied by done. fold port. simpl.
  rewrite getProcessByPort_unfold, isPortInUse_unfold. simpl.
  by rewrite <- app_assoc.
Qed.

End SupervisorFacts.

(** C8.  If the socket listing gives Go an error, which is what happens
    both when nothing listens on the port and when the listing itself cannot
    be made, [isPortInUse] answers [false] and [getProcessByPort] answers 0.
    Both return a plain value: no error reaches the caller, nothing is
    logged, and the only thing done is the one run of [lsof]. *)
Theorem port_queries_tolerate_failure `{OSModel} (port : Z) (w : World) :
  let listing := fst (os_run "lsof" (lsofArgs "-i" port) (w_os w)) in
  let owners := fst (os_run "lsof" (lsofArgs "-ti" port) (w_os w)) in
  (lookupFailed listing → fst (isPortInUse port w) = false) ∧
  (lookupFailed owners → fst (getProcessByPort port w) = 0) ∧
  w_logger (snd (isPortInUse port w)) = w_logger w ∧
  w_logger (snd (getProcessByPort port w)) = w_logger w ∧
  w_trace (snd (isPortInUse port w)) =
    w_trace w ++ [EvRun "lsof" (lsofArgs "-i" port)] ∧
  w_trace (snd (getProcessByPort port w)) =
    w_trace w ++ [EvRun "lsof" (lsofArgs "-ti" port)].
Proof.
  intros listing owners.
  rewrite isPortInUse_unfold, getProcessByPort_unfold. simpl.
  fold listing owners. split_and!; try done.
  - intros [e He]. rewrite He. done.
  - intros [e He]. unfold pidOf. rewrite He. done.
Qed.

Lemma port_queries_tolerate_failure_witness :
  fst (@isPortInUse simOS 8080 (initWorld (H := simOS) simFree)) = false ∧
  fst (@getProcessByPort simOS 8080 (initWorld (H := simOS) simFree)) = 0.
Proof.
  destruct (@port_queries_tolerate_failure simOS 8080
              (initWorld (H := simOS) simFree)) as (Hi & Ht & _).
  split.
  - apply Hi. vm_compute. eexists. reflexivity.
  - apply Ht. vm_compute. eexists. reflexivity.
Defined.

(** C10.  When [lsof -ti] succeeds but what it printed, trimmed, is not one
    integer (several PIDs, one per line, when processes share the port),
    [getProcessByPort] answers 0; if [isPortInUse] has just answered [true],
    [checkServerStatus] reports [ServerRunning] with PID 0. *)
Theorem shared_port_reported_with_pid_0 `{OSModel}
    (m : DashboardModel) (w : World) :
  let port := Port (server m) in
  let w1 := snd (isPortInUse port w) in
  let owners := fst (os_run "lsof" (lsofArgs "-ti" port) (w_os w1)) in
  err owners = None →
  Atoi (TrimSpace (stdout owners)) = None →
  fst (getProcessByPort port w1) = 0 ∧
  (fst (isPortInUse port w) = true →
   fst (checkServerStatus m w) = mkStatusMsg ServerRunning 0 None).
Proof.
  intros port w1 owners Herr Hparse.
  assert (fst (getProcessByPort port w1) = 0) as Hpid.
  { rewrite getProcessByPort_unfold. simpl. fold owners.
    unfold pidOf. rewrite Herr, Hparse. by case_decide. }
  split; [done|]. intros Hocc.
  rewrite checkServerStatus_unfold. simpl. fold port. rewrite Hocc.
  fold w1. simpl. by rewrite Hpid.
Qed.

Lemma shared_port_reported_with_pid_0_witness :
  let w := initWorld (H := simOS) simShared in
  stdout (fst (sim_run "lsof" (lsofArgs "-ti" 8080) simShared)) =
    unlines ["4242"; "4243"] ∧
  fst (@isPortInUse simOS 8080 w) = true ∧
  fst (@getProcessByPort simOS 8080 (snd (@isPortInUse simOS 8080 w))) = 0 ∧
  fst (@checkServerStatus simOS model8080 w) =
    mkStatusMsg ServerRunning 0 None.
Proof.
  intros w.
  destruct (@shared_port_reported_with_pid_0 simOS model8080 w)
    as [Hpid Hstatus]; [vm_compute; reflexivity | vm_compute; reflexivity |].
  split_and!; [vm_compute; reflexivity | vm_compute; reflexivity
               | exact Hpid | apply Hstatus; vm_compute; reflexivity].
Defined.

(** C1, in the form that holds.  When the port is in use at the moment
    [startServer] is called, it spawns nothing and builds nothing: all it
    does is the two runs of [lsof], and it returns [ServerRunning] with the
    PID [getProcessByPort] finds for the port, which is the one integer that
    [lsof -ti] printed and 0 if it printed anything else.  Whether the
    supervisor holds a child plays no part.  Hence over any sequence of calls
    of [startServer], each issued while the status check reports
    [ServerRunning], no child is spawned; with at most one child spawned
    before, at most one has ever been. *)
Theorem Start_on_occupied_port `{OSModel} (m : DashboardModel) :
  let port := Port (server m) in
  (∀ w, fst (isPortInUse port w) = true →
     let owner := getProcessByPort port (snd (isPortInUse port w)) in
     let listed := os_run "lsof" (lsofArgs "-ti" port)
                     (w_os (snd (isPortInUse port w))) in
     let w' := snd (startServer m w) in
     fst (startServer m w) = mkStatusMsg ServerRunning (fst owner) None ∧
     fst owner = pidOf (fst listed) ∧
     w_trace w' = w_trace w ++ [EvRun "lsof" (lsofArgs "-i" port);
                                EvRun "lsof" (lsofArgs "-ti" port)] ∧
     spawned (w_trace w') = spawned (w_trace w) ∧
     builds (w_trace w') = builds (w_trace w) ∧
     currentServer w' = currentServer w ∧
     w_logger w' = w_logger w) ∧
  (∀ w w', startsWhileRunning m w w' →
     spawned (w_trace w') = spawned (w_trace w) ∧
     builds (w_trace w') = builds (w_trace w) ∧
     ((length (spawned (w_trace w)) ≤ 1)%nat →
      (length (spawned (w_trace w')) ≤ 1)%nat)).
Proof.
  intros port.
  assert (∀ w, fst (isPortInUse port w) = true →
            spawned (w_trace (snd (startServer m w))) = spawned (w_trace w) ∧
            builds (w_trace (snd (startServer m w))) = builds (w_trace w))
    as Hnone.
  { intros w Hocc.
    destruct (startServer_occupied_effects m w Hocc) as (_ & -> & _).
    unfold spawned, builds. rewrite !omap_app. simpl.
    by rewrite !app_nil_r. }
  split.
  - intros w Hocc owner listed w'.
    destruct (startServer_occupied_effects m w Hocc) as (Hmsg & Ht & Hc & Hl).
    destruct (Hnone w Hocc) as [Hs Hb]. split_and!; try done.
    subst owner listed. by rewrite getProcessByPort_unfold.
  - intros w w' Hseq.
    assert (spawned (w_trace w') = spawned (w_trace w) ∧
            builds (w_trace w') = builds (w_trace w)) as [Hs Hb].
    { induction Hseq as [w | w o w' _ IH | w w' Hrun _ IH]; [done | done |].
      apply checkServerStatus_Running in Hrun.
      destruct (Hnone w Hrun) as [Hs Hb].
      destruct IH as [IHs IHb]. split; congruence. }
    split_and!; [done | done | by rewrite Hs].
Qed.

Lemma Start_on_occupied_port_witness :
  let w := initWorld (H := simOS) simExternal in
  let w1 := snd (@startServer simOS model8080 w) in
  let later := @setOS simOS (sim_sleep 1000 simExternal) w1 in
  let w2 := snd (@startServer simOS model8080 later) in
  fst (@startServer simOS model8080 w) = mkStatusMsg ServerRunning 777 None ∧
  spawned (w_trace w1) = [] ∧
  builds (w_trace w1) = [] ∧
  (length (spawned (w_trace w2)) ≤ 1)%nat.
Proof.
  intros w w1 later w2.
  destruct (@Start_on_occupied_port simOS model8080) as [Hone Hseq].
  destruct (Hone w) as (Hmsg & _ & _ & Hs & Hb & _);
    [vm_compute; reflexivity|].
  split_and!; [exact Hmsg | exact Hs | exact Hb |].
  apply (Hseq w w2); [|vm_compute; lia].
  apply swr_start; [vm_compute; reflexivity|].
  apply (@swr_env simOS _ _ (sim_sleep 1000 simExternal)).
  apply swr_start; [vm_compute; reflexivity|].
  apply swr_done.
Defined.

(** C1 does not hold as stated.  First, two processes share the port:
    [startServer] answers [ServerRunning] with PID 0, the PID of neither of
    them.  Second, a start has spawned child 4242 and the supervisor holds
    it, but the child does not hold the port: the next start builds again
    and spawns child 4243 beside it, and the supervisor's handle on the
    first child is overwritten. *)
Lemma Start_answers_pid_0_and_spawns_beside_held_child :
  let shared := initWorld (H := simOS) simShared in
  let started :=
    snd (@startServer simOS model8080 (initWorld (H := simOS) simFree)) in
  let unbound := @setOS simOS (mkSim 5000 [] [] 4243 true) started in
  let again := snd (@startServer simOS model8080 unbound) in
  (sim_listeners simShared = [4242; 4243] ∧
   fst (@isPortInUse simOS 8080 shared) = true ∧
   fst (@startServer simOS model8080 shared) =
     mkStatusMsg ServerRunning 0 None ∧
   0 ∉ sim_listeners simShared) ∧
  (spawned (w_trace started) = [4242] ∧
   (currentServer unbound ≫= cmd) ≫= Process = Some 4242 ∧
   fst (@startServer simOS model8080 unbound) =
     mkStatusMsg ServerRunning 4243 None ∧
   spawned (w_trace again) = [4242; 4243] ∧
   builds (w_trace again) =
     [["wasm"]; ["server"]; ["wasm"]; ["server"]] ∧
   (currentServer again ≫= cmd) ≫= Process = Some 4243 ∧
   ¬ (length (spawned (w_trace again)) ≤ 1)%nat).
Proof.
  intros shared started unbound again.
  assert (spawned (w_trace again) = [4242; 4243]) as Hs
    by (vm_compute; reflexivity).
  split; split_and!; try (vm_compute; reflexivity).
  - intros Hin. apply list_elem_of_In in Hin. simpl in Hin.
    destruct Hin as [? | [? | []]]; done.
  - rewrite Hs. simpl. lia.
Qed.

(** ** Running the supervisor's commands step by step *)

Section Exec.

Context `{OSModel}.

Implicit Types (w : World) (m : DashboardModel).

Lemma bind_run {A B} (c : M A) (k : A → M B) w a w1 :
  c w = (a, w1) → bind c k w = k a w1.
Proof. unfold bind. by intros ->. Qed.

Lemma bind_assoc {A B C} (c : M A) (k1 : A → M B) (k2 : B → M C) w :
  bind (bind c k1) k2 w = bind c (λ a, bind (k1 a) k2) w.
Proof. unfold bind. by destruct (c w). Qed.

(** A property of the answers of every continuation is a property of the
  answer of the whole. *)
Lemma bind_answer {A B} (c : M A) (k : A → M B) (P : B → Prop) w :
  (∀ a w', P (fst (k a w'))) → P (fst (bind c k w)).
Proof. intros Hk. unfold bind. destruct (c w). apply Hk. Qed.

Lemma sys_run {A} (f : OS → A * OS) w a o :
  f (w_os w) = (a, o) →
  sys f w =
    (a, mkWorld o (w_logger w) (currentServer w) (w_trace w) (w_ctxs w)).
Proof. unfold sys. by intros ->. Qed.

Lemma run_run name args w r o :
  os_run name args (w_os w) = (r, o) →
  run name args w =
  (r, mkWorld o (w_logger w) (currentServer w)
              (w_trace w ++ [EvRun name args]) (w_ctxs w)).
Proof. unfold run, bind, sys, emit, ret. by intros ->. Qed.

Lemma kill_run pid sig w r o :
  os_kill pid sig (w_os w) = (r, o) →
  kill pid sig w =
  (r, mkWorld o (w_logger w) (currentServer w)
              (w_trace w ++ [EvKill pid sig]) (w_ctxs w)).
Proof. unfold kill, bind, sys, emit. simpl. by intros ->. Qed.

Lemma isPortInUse_run port w r o :
  os_run "lsof" (lsofArgs "-i" port) (w_os w) = (r, o) →
  isPortInUse port w =
  (bool_decide (err r = None),
   mkWorld o (w_logger w) (currentServer w)
           (w_trace w ++ [EvRun "lsof" (lsofArgs "-i" port)]) (w_ctxs w)).
Proof. intros Hr. rewrite isPortInUse_unfold, Hr. done. Qed.

Lemma getProcessByPort_run port w r o :
  os_run "lsof" (lsofArgs "-ti" port) (w_os w) = (r, o) →
  getProcessByPort port w =
  (pidOf r,
   mkWorld o (w_logger w) (currentServer w)
           (w_trace w ++ [EvRun "lsof" (lsofArgs "-ti" port)]) (w_ctxs w)).
Proof. intros Hr. rewrite getProcessByPort_unfold, Hr. done. Qed.

End Exec.

(** One step of a command: the first action of a [bind] is run, by its
    definition or by what is known of the operating system's answer. *)
Ltac exec_step :=
  rewrite ?bind_assoc;
  erewrite bind_run by
    first [ eapply isPortInUse_run; eassumption
          | eapply getProcessByPort_run; eassumption
          | eapply run_run; eassumption
          | eapply kill_run; eassumption
          | eapply sys_run; eassumption
          | reflexivity ];
  cbn [fst snd w_os w_logger currentServer w_trace w_ctxs].

Ltac exec := repeat exec_step.

Section StartFacts.

Context `{OSModel}.

Implicit Types (w : World) (m : DashboardModel).

Lemma failStart_answer ctx what e w :
  startAnswer (fst (failStart ctx what e w)).
Proof.
  unfold failStart. do 2 (apply bind_answer; intros _ ?). right. simpl. eauto.
Qed.

Lemma startServer_result m w : startAnswer (fst (startServer m w)).
Proof.
  unfold startServer.
  apply bind_answer. intros [|] w1.
  { apply bind_answer. intros pid w2. by left. }
  do 3 (apply bind_answer; intros ? ?).
  destruct (err _); [apply failStart_answer|].
  do 3 (apply bind_answer; intros ? ?).
  destruct (err _); [apply failStart_answer|].
  do 3 (apply bind_answer; intros ? ?).
  match goal with |- context [match ?x with _ => _ end] => destruct x end;
    [apply failStart_answer|].
  apply bind_answer; intros ? ?.
  match goal with |- context [match ?x with _ => _ end] => destruct x end;
    [apply failStart_answer|].
  apply bind_answer; intros ? ?.
  match goal with |- context [match ?x with _ => _ end] => destruct x end;
    [apply failStart_answer|].
  do 7 (apply bind_answer; intros ? ?). by left.
Qed.

End StartFacts.

Section LogFacts.

Context `{OSModel}.

(** The entry just logged is the newest of the buffer. *)
Lemma last_entries_Log now level source message (l : Logger) :
  last (entries (Log now level source message l)) =
  Some (mkLogEntry now level source (TrimSpace message)).
Proof.
  unfold Log. simpl.
  destruct (Z.ltb_spec 500 (Z.of_nat (length (entries l ++
  [mkLogEntry now level source (TrimSpace message)])))) as [Hlt|_].
  - destruct (entries l) as [|x es]; simpl in *; [lia|].
  rewrite drop_0. apply last_snoc.
  - apply last_snoc.
Qed.

(** What [startServer] does when the port is free and [make wasm] fails. *)
Lemma startServer_wasm_fails m w r0 o0 r1 o1 e :
  os_run "lsof" (lsofArgs "-i" (Port (server m))) (w_os w) = (r0, o0) →
  is_Some (err r0) →
  os_run "make" ["wasm"] o0 = (r1, o1) →
  err r1 = Some e →
  startServer m w =
  (mkStatusMsg ServerStopped 0 (Some ("failed to build WASM: " +:+ e)),
   mkWorld o1
     (Log (os_now o1) LogError "cli" ("Failed to build WASM: " +:+ e)
        (Log (os_now o0) LogSystem "cli" "Building WASM..." (w_logger w)))
     (currentServer w)
     (w_trace w ++ [EvRun "lsof" (lsofArgs "-i" (Port (server m)));
                    EvRun "make" ["wasm"]; EvCancel (w_ctxs w)])
     (S (w_ctxs w))).
Proof.
  intros Hlsof [e0 He0] Hmake Hfail. unfold startServer.
  exec_step. rewrite He0, bool_decide_false by done.
  exec. rewrite Hfail. unfold failStart. exec.
  unfold ret. by rewrite <- !app_assoc.
Qed.

End LogFacts.

(** C4, in the form that holds.  On a free port, when the first build step
    ([make wasm]) fails with error [e], [startServer] returns [ServerStopped]
    with the error ["failed to build WASM: " ++ e]; no child is spawned, the
    second build step is not tried and no process is held; the log sink got
    two entries, a system-severity one announcing the build before it ran
    and, as its newest entry, an error-severity one recording the failure. *)
Theorem Start_with_failing_first_build `{OSModel}
    (m : DashboardModel) (w : World) (e : error) :
  let port := Port (server m) in
  let w1 := snd (isPortInUse port w) in
  let make := os_run "make" ["wasm"] (w_os w1) in
  fst (isPortInUse port w) = false →
  err (fst make) = Some e →
  let w' := snd (startServer m w) in
  let failure := mkLogEntry (os_now (snd make)) LogError "cli"
                            (TrimSpace ("Failed to build WASM: " +:+ e)) in
  fst (startServer m w) =
    mkStatusMsg ServerStopped 0 (Some ("failed to build WASM: " +:+ e)) ∧
  spawned (w_trace w') = spawned (w_trace w) ∧
  builds (w_trace w') = builds (w_trace w) ++ [["wasm"]] ∧
  currentServer w' = currentServer w ∧
  last (entries (w_logger w')) = Some failure ∧
  mirrored (w_logger w') =
    mirrored (w_logger w)
    ++ [mkLogEntry (os_now (w_os w1)) LogSystem "cli" "Building WASM...";
        failure].
Proof.
  intros port w1 make Hfree Hfail w' failure.
  subst w' failure make w1. revert Hfree Hfail.
  destruct (os_run "lsof" (lsofArgs "-i" port) (w_os w)) as [r0 o0] eqn:Hlsof.
  rewrite (isPortInUse_run _ _ _ _ Hlsof).
  cbn [fst snd w_os]. intros Hfree%bool_decide_eq_false.
  destruct (os_run "make" ["wasm"] o0) as [r1 o1] eqn:Hmake.
  cbn [fst snd]. intros Hfail.
  assert (is_Some (err r0)) as Hsome by (by destruct (err r0); [eexists|]).
  rewrite (startServer_wasm_fails m w _ _ _ _ e Hlsof Hsome Hmake Hfail).
  cbn [fst snd w_trace w_logger currentServer].
  split_and!; try done.
  - unfold spawned. rewrite omap_app. simpl. by rewrite app_nil_r.
  - unfold builds. by rewrite omap_app.
  - apply last_entries_Log.
  - unfold Log. simpl. by rewrite <- app_assoc.
Qed.

Lemma Start_with_failing_first_build_witness :
  let w := initWorld (H := simOS) simBrokenWasm in
  let w' := snd (@startServer simOS model8080 w) in
  fst (@startServer simOS model8080 w) =
    mkStatusMsg ServerStopped 0 (Some "failed to build WASM: exit status 2") ∧
  spawned (w_trace w') = [] ∧
  last (entries (w_logger w')) =
    Some (mkLogEntry 0 LogError "cli" "Failed to build WASM: exit status 2").
Proof.
  intros w w'.
  destruct (@Start_with_failing_first_build simOS model8080 w "exit status 2")
    as (Hmsg & Hsp & _ & _ & Hlast & _);
    [vm_compute; reflexivity | vm_compute; reflexivity |].
  split_and!; [exact Hmsg | exact Hsp | exact Hlast].
Defined.

(** C4 does not hold as stated: after a failed first build the only
    system-severity entry of the sink is the announcement logged before the
    build ran; the entry recording the failure has severity [LogError]. *)
Lemma failed_build_is_logged_at_error_severity :
  let w := initWorld (H := simOS) simBrokenWasm in
  let w' := snd (@startServer simOS model8080 w) in
  fst (@isPortInUse simOS 8080 w) = false ∧
  err (fst (sim_run "make" ["wasm"] simBrokenWasm)) = Some "exit status 2" ∧
  entries (w_logger w') =
    [mkLogEntry 0 LogSystem "cli" "Building WASM...";
     mkLogEntry 0 LogError "cli" "Failed to build WASM: exit status 2"] ∧
  ¬ ∃ entry, entry ∈ entries (w_logger w') ∧ Level entry = LogSystem ∧
             recordsFailure "exit status 2" entry.
Proof.
  intros w w'.
  assert (entries (w_logger w') =
    [mkLogEntry 0 LogSystem "cli" "Building WASM...";
     mkLogEntry 0 LogError "cli" "Failed to build WASM: exit status 2"])
    as Hentries by (vm_compute; reflexivity).
  split_and!; [vm_compute; reflexivity | vm_compute; reflexivity | done |].
  intros (entry & Hin & Hlevel & Hrec). rewrite Hentries in Hin.
  apply list_elem_of_In in Hin. simpl in Hin.
  destruct Hin as [<- | [<- | []]].
  - vm_compute in Hrec. by destruct Hrec.
  - done.
Qed.

Section StopFacts.

Context `{OSModel}.

Implicit Types (w : World) (m : DashboardModel) (sp : ServerProcess).

Lemma stopServer_held_group m w sp pid pgid o1 r o2 r' o3 :
  currentServer w = Some sp →
  cmd sp ≫= Process = Some pid →
  os_getpgid pid (w_os w) = (inr pgid, o1) →
  os_kill (- pgid) SIGTERM o1 = (r, o2) →
  os_kill pid SIGKILL o2 = (r', o3) →
  stopServer m w =
  (mkStatusMsg ServerStopped 0 None,
   mkWorld o3
     (Log (os_now o3) LogSystem "cli" "Server stopped"
          (stopLogHeld (w_os w) pid (w_logger w)))
     None
     (w_trace w ++ [EvCancel (cancel sp); EvKill (- pgid) SIGTERM;
                    EvGo (WaitExit pid); EvKill pid SIGKILL])
     (w_ctxs w)).
Proof.
  intros Hheld Hproc Hpg Hterm Hkill. unfold stopServer, contextKill.
  exec_step. rewrite Hheld. exec. rewrite Hproc. exec.
  unfold ret, stopLogHeld. by rewrite <- !app_assoc.
Qed.

Lemma stopServer_held_nogroup m w sp pid e o1 r' o3 :
  currentServer w = Some sp →
  cmd sp ≫= Process = Some pid →
  os_getpgid pid (w_os w) = (inl e, o1) →
  os_kill pid SIGKILL o1 = (r', o3) →
  stopServer m w =
  (mkStatusMsg ServerStopped 0 None,
   mkWorld o3
     (Log (os_now o3) LogSystem "cli" "Server stopped"
          (stopLogHeld (w_os w) pid (w_logger w)))
     None
     (w_trace w ++ [EvCancel (cancel sp); EvGo (WaitExit pid);
                    EvKill pid SIGKILL])
     (w_ctxs w)).
Proof.
  intros Hheld Hproc Hpg Hkill. unfold stopServer, contextKill.
  exec_step. rewrite Hheld. exec. rewrite Hproc. exec.
  unfold ret, stopLogHeld. by rewrite <- !app_assoc.
Qed.

Lemma stopServer_held_unstarted m w sp :
  currentServer w = Some sp →
  cmd sp ≫= Process = None →
  stopServer m w =
  (mkStatusMsg ServerStopped 0 None,
   mkWorld (w_os w)
     (Log (os_now (w_os w)) LogSystem "cli" "Server stopped"
        (Log (os_now (w_os w)) LogSystem "cli" "Stopping server..."
           (w_logger w)))
     None (w_trace w ++ [EvCancel (cancel sp)]) (w_ctxs w)).
Proof.
  intros Hheld Hproc. unfold stopServer.
  exec_step. rewrite Hheld. exec. rewrite Hproc. exec. done.
Qed.

Lemma stopServer_free_term m w r o1 o2 :
  currentServer w = None →
  os_run "lsof" (lsofArgs "-ti" (Port (server m))) (w_os w) = (r, o1) →
  0 < pidOf r →
  os_kill (pidOf r) SIGTERM o1 = (None, o2) →
  stopServer m w =
  (mkStatusMsg ServerStopped 0 None,
   mkWorld o2
     (Log (os_now o2) LogSystem "cli" "Server stopped"
        (stopLogFound (w_os w) o1 (Port (server m)) (pidOf r) (w_logger w)))
     None
     (w_trace w ++ [EvRun "lsof" (lsofArgs "-ti" (Port (server m)));
                    EvKill (pidOf r) SIGTERM])
     (w_ctxs w)).
Proof.
  intros Hnone Hlsof Hpid Hkill. unfold stopServer.
  exec_step. rewrite Hnone. exec.
  destruct (Z.ltb_spec 0 (pidOf r)); [|lia]. exec.
  unfold ret, stopLogFound. by rewrite Hnone, <- !app_assoc.
Qed.

Lemma stopServer_free_kill m w r o1 e o2 r' o3 :
  currentServer w = None →
  os_run "lsof" (lsofArgs "-ti" (Port (server m))) (w_os w) = (r, o1) →
  0 < pidOf r →
  os_kill (pidOf r) SIGTERM o1 = (Some e, o2) →
  os_kill (pidOf r) SIGKILL o2 = (r', o3) →
  stopServer m w =
  (mkStatusMsg ServerStopped 0 None,
   mkWorld o3
     (Log (os_now o3) LogSystem "cli" "Server stopped"
        (Log (os_now o2) LogWarning "cli" "SIGTERM failed, using SIGKILL"
           (stopLogFound (w_os w) o1 (Port (server m)) (pidOf r)
                         (w_logger w))))
     None
     (w_trace w ++ [EvRun "lsof" (lsofArgs "-ti" (Port (server m)));
                    EvKill (pidOf r) SIGTERM; EvKill (pidOf r) SIGKILL])
     (w_ctxs w)).
Proof.
  intros Hnone Hlsof Hpid Hterm Hkill. unfold stopServer.
  exec_step. rewrite Hnone. exec.
  destruct (Z.ltb_spec 0 (pidOf r)); [|lia]. exec.
  unfold ret, stopLogFound. by rewrite Hnone, <- !app_assoc.
Qed.

Lemma stopServer_free_nobody m w r o1 :
  currentServer w = None →
  os_run "lsof" (lsofArgs "-ti" (Port (server m))) (w_os w) = (r, o1) →
  pidOf r ≤ 0 →
  stopServer m w =
  (mkStatusMsg ServerStopped 0 None,
   mkWorld o1
     (Log (os_now o1) LogSystem "cli" "Server stopped"
        (Log (os_now o1) LogSystem "cli" "No process found on port"
           (Log (os_now (w_os w)) LogSystem "cli"
                "No active server process, checking port..." (w_logger w))))
     None
     (w_trace w ++ [EvRun "lsof" (lsofArgs "-ti" (Port (server m)))])
     (w_ctxs w)).
Proof.
  intros Hnone Hlsof Hpid. unfold stopServer.
  exec_step. rewrite Hnone. exec.
  destruct (Z.ltb_spec 0 (pidOf r)); [lia|]. exec.
  unfold ret. by rewrite Hnone.
Qed.

(** In every case [stopServer] answers [ServerStopped] with PID 0, leaves
  no process held and has "Server stopped" as the newest log entry. *)
Lemma stopServer_result m w :
  fst (stopServer m w) = mkStatusMsg ServerStopped 0 None ∧
  currentServer (snd (stopServer m w)) = None ∧
  ∃ t, last (entries (w_logger (snd (stopServer m w)))) =
       Some (mkLogEntry t LogSystem "cli" "Server stopped").
Proof.
  destruct (currentServer w) as [sp|] eqn:Hcur.
  - destruct (cmd sp ≫= Process) as [pid|] eqn:Hproc.
  + destruct (os_getpgid pid (w_os w)) as [[e|pgid] o1] eqn:Hpg.
    * destruct (os_kill pid SIGKILL o1) as [r' o3] eqn:Hkill.
      rewrite (stopServer_held_nogroup m w sp pid e o1 r' o3) by done.
      split_and!; [done | done | eexists; apply last_entries_Log].
    * destruct (os_kill (- pgid) SIGTERM o1) as [r o2] eqn:Hterm.
      destruct (os_kill pid SIGKILL o2) as [r' o3] eqn:Hkill.
      rewrite (stopServer_held_group m w sp pid pgid o1 r o2 r' o3) by done.
      split_and!; [done | done | eexists; apply last_entries_Log].
  + rewrite (stopServer_held_unstarted m w sp) by done.
    split_and!; [done | done | eexists; apply last_entries_Log].
  - destruct (os_run "lsof" (lsofArgs "-ti" (Port (server m))) (w_os w))
    as [r o1] eqn:Hlsof.
  destruct (decide (0 < pidOf r)) as [Hpid|Hpid].
  + destruct (os_kill (pidOf r) SIGTERM o1) as [[e|] o2] eqn:Hterm.
    * destruct (os_kill (pidOf r) SIGKILL o2) as [r' o3] eqn:Hkill.
      rewrite (stopServer_free_kill m w r o1 e o2 r' o3) by done.
      split_and!; [done | done | eexists; apply last_entries_Log].
    * rewrite (stopServer_free_term m w r o1 o2) by done.
      split_and!; [done | done | eexists; apply last_entries_Log].
  + rewrite (stopServer_free_nobody m w r o1) by (done || lia).
    split_and!; [done | done | eexists; apply last_entries_Log].
Qed.

End StopFacts.

(** C2, in the form that holds.  In every case [stopServer] returns
    [ServerStopped] with PID 0 and holds no process afterwards.  With a held
    process whose command was started: the context is cancelled, SIGTERM goes
    to the whole process group if [Getpgid] finds the group and to nobody if
    it does not, the wait for the exit is handed to a goroutine and not
    awaited, and the cancelled context makes os/exec send SIGKILL to the
    child itself, so the stop is never only a graceful one.  With a held
    instance whose command was never started the context is cancelled and
    nothing else is done.  With no held process: the owner of the port is
    looked up with [getProcessByPort]; if a PID above 0 is found it gets
    SIGTERM, and SIGKILL as well if sending SIGTERM failed; otherwise no
    signal is sent. *)
Theorem Stop_terminates_and_reports_stopped `{OSModel}
    (m : DashboardModel) (w : World) :
  let w' := snd (stopServer m w) in
  fst (stopServer m w) = mkStatusMsg ServerStopped 0 None ∧
  currentServer w' = None ∧
  (∀ sp pid,
     currentServer w = Some sp → cmd sp ≫= Process = Some pid →
     match fst (os_getpgid pid (w_os w)) with
     | inr pgid =>
         w_trace w' = w_trace w ++ [EvCancel (cancel sp);
                                    EvKill (- pgid) SIGTERM;
                                    EvGo (WaitExit pid);
                                    EvKill pid SIGKILL]
     | inl _ =>
         w_trace w' = w_trace w ++ [EvCancel (cancel sp);
                                    EvGo (WaitExit pid);
                                    EvKill pid SIGKILL]
     end) ∧
  (∀ sp,
     currentServer w = Some sp → cmd sp ≫= Process = None →
     w_trace w' = w_trace w ++ [EvCancel (cancel sp)]) ∧
  (currentServer w = None →
     let port := Port (server m) in
     let pid := fst (getProcessByPort port w) in
     let w1 := snd (getProcessByPort port w) in
     let lookup := EvRun "lsof" (lsofArgs "-ti" port) in
     if 0 <? pid then
       match fst (os_kill pid SIGTERM (w_os w1)) with
       | None => w_trace w' = w_trace w ++ [lookup; EvKill pid SIGTERM]
       | Some _ =>
           w_trace w' = w_trace w ++ [lookup; EvKill pid SIGTERM;
                                      EvKill pid SIGKILL]
       end
     else w_trace w' = w_trace w ++ [lookup]).
Proof.
  intros w'. subst w'.
  destruct (stopServer_result m w) as (Hmsg & Hcur & _).
  split_and!; [done | done | | |].
  - intros sp pid Hheld Hproc.
    destruct (os_getpgid pid (w_os w)) as [[e|pgid] o1] eqn:Hpg; simpl.
    + destruct (os_kill pid SIGKILL o1) as [r' o3] eqn:Hkill.
      by rewrite (stopServer_held_nogroup m w sp pid e o1 r' o3).
    + destruct (os_kill (- pgid) SIGTERM o1) as [r o2] eqn:Hterm.
      destruct (os_kill pid SIGKILL o2) as [r' o3] eqn:Hkill.
      by rewrite (stopServer_held_group m w sp pid pgid o1 r o2 r' o3).
  - intros sp Hheld Hproc.
    by rewrite (stopServer_held_unstarted m w sp).
  - intros Hnone port pid w1 lookup. subst pid w1 lookup.
    destruct (os_run "lsof" (lsofArgs "-ti" port) (w_os w))
      as [r o1] eqn:Hlsof.
    rewrite (getProcessByPort_run _ _ _ _ Hlsof). cbn [fst snd w_os].
    destruct (Z.ltb_spec 0 (pidOf r)) as [Hpid|Hpid].
    + destruct (os_kill (pidOf r) SIGTERM o1) as [[e|] o2] eqn:Hterm; simpl.
      * destruct (os_kill (pidOf r) SIGKILL o2) as [r' o3] eqn:Hkill.
        by rewrite (stopServer_free_kill m w r o1 e o2 r' o3).
      * by rewrite (stopServer_free_term m w r o1 o2).
    + by rewrite (stopServer_free_nobody m w r o1).
Qed.

Lemma Stop_terminates_and_reports_stopped_witness :
  let held := heldWorld (mkSim 0 [4242] [] 4243 true) in
  let free := initWorld (H := simOS) simExternal in
  w_trace (snd (@stopServer simOS model8080 held)) =
    [EvCancel 0; EvKill (-4242) SIGTERM; EvGo (WaitExit 4242);
     EvKill 4242 SIGKILL] ∧
  w_trace (snd (@stopServer simOS model8080 free)) =
    [EvRun "lsof" ["-ti"; ":8080"]; EvKill 777 SIGTERM].
Proof.
  intros held free. split.
  - destruct (@Stop_terminates_and_reports_stopped simOS model8080 held)
      as (_ & _ & Hheld & _).
    exact (Hheld _ 4242 eq_refl eq_refl).
  - destruct (@Stop_terminates_and_reports_stopped simOS model8080 free)
      as (_ & _ & _ & _ & Hfree).
    exact (Hfree eq_refl).
Defined.

(** C2 does not hold as stated: a process is held, [Getpgid] fails for
    it, and [stopServer] returns [ServerStopped] without having sent a
    graceful signal to anyone.  The one signal of the stop is the SIGKILL
    that the cancelled context brings upon the child itself, not upon its
    group. *)
Lemma Stop_without_group_is_not_graceful :
  let w := heldWorld (mkSim 0 [4242] [] 4243 false) in
  let w' := snd (@stopServer simOS model8080 w) in
  is_Some (currentServer w) ∧
  fst (@stopServer simOS model8080 w) = mkStatusMsg ServerStopped 0 None ∧
  w_trace w' = [EvCancel 0; EvGo (WaitExit 4242); EvKill 4242 SIGKILL] ∧
  signals (w_trace w') = [(4242, SIGKILL)] ∧
  ¬ ∃ pid, (pid, SIGTERM) ∈ signals (w_trace w').
Proof.
  intros w w'.
  assert (signals (w_trace w') = [(4242, SIGKILL)]) as Hsig
    by (vm_compute; reflexivity).
  split_and!; [by eexists | vm_compute; reflexivity | vm_compute; reflexivity
               | done |].
  intros (pid & Hin). rewrite Hsig in Hin.
  apply list_elem_of_singleton in Hin. done.
Qed.

(** C6, in the form that holds.  [restartServer] runs [stopServer] to its end
    before the cooldown: [stopServer] has answered [ServerStopped], no
    process is held and "Server stopped" is the newest entry of the sink when
    the two seconds of sleep begin.  That answer is dropped.  After the sleep
    comes [startServer], and its answer is the one message the command
    delivers: [ServerRunning] with a PID and no error, or [ServerStopped]
    with PID 0 and an error. *)
Theorem Restart_delivers_only_the_answer_of_Start `{OSModel}
    (m : DashboardModel) (w : World) :
  let w0 := snd (logMsg LogSystem "cli" "Restarting server..." w) in
  let w1 := snd (stopServer m w0) in
  let waiting := snd (logMsg LogSystem "cli" "Waiting for cleanup..." w1) in
  let w2 := snd (sleep 2000 waiting) in
  let w3 := snd (logMsg LogSystem "cli" "Starting server again..." w2) in
  let answer := fst (startServer m w3) in
  fst (stopServer m w0) = mkStatusMsg ServerStopped 0 None ∧
  currentServer w1 = None ∧
  (∃ t, last (entries (w_logger w1)) =
          Some (mkLogEntry t LogSystem "cli" "Server stopped")) ∧
  w_trace w2 = w_trace w1 ++ [EvSleep 2000] ∧
  w_os w2 = os_sleep 2000 (w_os w1) ∧
  w_trace w3 = w_trace w2 ∧
  restartServer m w = startServer m w3 ∧
  delivered (restartServer m) w = [answer] ∧
  startAnswer answer.
Proof.
  intros w0 w1 waiting w2 w3 answer.
  destruct (stopServer_result m w0) as (Hmsg & Hcur & Hlog).
  assert (restartServer m w = startServer m w3) as Hrestart.
  { unfold restartServer. exec_step.
    rewrite (bind_run (stopServer m) _ _ _ w1)
      by (subst w1 w0; apply surjective_pairing).
    exec. done. }
  split_and!; try done.
  - unfold delivered. by rewrite Hrestart.
  - apply startServer_result.
Qed.

(** C6 does not hold as stated: the supervisor holds child 4242, which
    has the port.  The restart stops it, sleeps, builds and spawns child
    4243; the one message delivered says [ServerRunning], and a controller
    showing [ServerRunning] before still shows it after: no [ServerStopped]
    ever reaches it. *)
Lemma Restart_never_delivers_Stopped :
  let w := heldWorld (mkSim 0 [4242] [] 4243 true) in
  let m := fst (Update 0 model8080
                  (StatusMsg (mkStatusMsg ServerRunning 4242 None))) in
  Status (server m) = ServerRunning ∧
  snd (Update 1 m (KeyMsg "r")) = CmdRestartServer m ∧
  delivered (@restartServer simOS m) w =
    [mkStatusMsg ServerRunning 4243 None] ∧
  signals (w_trace (snd (@restartServer simOS m w))) =
    [(-4242, SIGTERM); (4242, SIGKILL)] ∧
  spawned (w_trace (snd (@restartServer simOS m w))) = [4243] ∧
  Status (server (runUpdates m ((λ s, (2500, StatusMsg s))
                                  <$> delivered (@restartServer simOS m) w))) =
    ServerRunning ∧
  ¬ (∃ s, s ∈ delivered (@restartServer simOS m) w ∧
          msg_Status s = ServerStopped).
Proof.
  intros w m.
  assert (delivered (@restartServer simOS m) w =
          [mkStatusMsg ServerRunning 4243 None]) as Hd
    by (vm_compute; reflexivity).
  split_and!; [done | done | done | vm_compute; reflexivity
               | vm_compute; reflexivity | by rewrite Hd |].
  intros (s & Hin & Hstopped). rewrite Hd in Hin.
  apply list_elem_of_singleton in Hin as ->. done.
Qed.

(** ** The controller's error slot *)

Section ControllerFacts.

Implicit Types (m : DashboardModel) (msg : Msg) (now : Time).

Lemma keyMap_Update now m msg : keyMap (fst (Update now m msg)) = keyMap m.
Proof.
  destruct msg; simpl; try done.
  - unfold updateKey.
  repeat (match goal with
          | |- context [if ?c then _ else _] => destruct c
          end; simpl; try done).
  - unfold applyStatus. destruct s as [st pid oe], m. simpl.
  destruct oe, st, startTime0; reflexivity.
Qed.

(** A message that is neither the clear-error key nor a status message
  leaves the error slot as it is. *)
Lemma error_kept_Update now m msg :
  touchesError (keyMap m) msg = false →
  lastError (fst (Update now m msg)) = lastError m ∧
  showError (fst (Update now m msg)) = showError m.
Proof.
  destruct msg; simpl; try done.
  unfold isClearKey, updateKey.
  repeat (match goal with
        | |- context [Matches ?k ?b] => destruct (Matches k b)
        | |- context [if ?c then _ else _] => destruct c
        end; simpl; try done).
Qed.

Lemma error_kept_runUpdates (msgs : list (Time * Msg)) : ∀ m,
  Forall (λ tm, touchesError (keyMap m) (snd tm) = false) msgs →
  lastError (runUpdates m msgs) = lastError m ∧
  showError (runUpdates m msgs) = showError m.
Proof.
  induction msgs as [|[now msg] msgs IH]; intros m Hall; [done|].
  apply Forall_cons in Hall as [Hmsg Hall]. simpl in *.
  destruct (error_kept_Update now m msg Hmsg) as [Hl Hs].
  unfold runUpdates in *. simpl.
  destruct (IH (fst (Update now m msg))) as [IHl IHs].
  { by rewrite keyMap_Update. }
  split; congruence.
Qed.

Lemma applyStatus_error now s m :
  lastError (applyStatus now s m) = default (lastError m) (msg_Error s) ∧
  showError (applyStatus now s m) = bool_decide (is_Some (msg_Error s)).
Proof.
  unfold applyStatus. destruct s as [st pid oe], m. simpl.
  destruct oe, st, startTime0; split; reflexivity.
Qed.

Lemma applyStatus_width now s m : width (applyStatus now s m) = width m.
Proof.
  unfold applyStatus. destruct s as [st pid oe], m. simpl.
  destruct oe, st, startTime0; reflexivity.
Qed.

Lemma updateKey_width k m : width (fst (updateKey k m)) = width m.
Proof.
  unfold updateKey.
  repeat (match goal with
          | |- context [if ?c then _ else _] => destruct c
          end; simpl; try done).
Qed.

(** Only a window-size message changes [width]. *)
Lemma width_Update now m msg :
  width (fst (Update now m msg)) =
  match msg with WindowSizeMsg w _ => w | _ => width m end.
Proof.
  destruct msg; simpl; try done.
  - apply updateKey_width.
  - apply applyStatus_width.
Qed.

Lemma width_kept_Update now m msg :
  zeroWidth msg = false → width m ≠ 0 → width (fst (Update now m msg)) ≠ 0.
Proof.
  intros Hz Hw. rewrite width_Update. destruct msg; try done.
  simpl in Hz. by apply bool_decide_eq_false in Hz.
Qed.

Lemma shown_kept_runUpdates (msgs : list (Time * Msg)) : ∀ m,
  Forall (λ tm, touchesError (keyMap m) (snd tm) = false ∧
                zeroWidth (snd tm) = false) msgs →
  width m ≠ 0 →
  displayedError (runUpdates m msgs) = displayedError m.
Proof.
  induction msgs as [|[now msg] msgs IH]; intros m Hall Hw; [done|].
  apply Forall_cons in Hall as [[Hmsg Hz] Hall]. simpl in *.
  destruct (error_kept_Update now m msg Hmsg) as [Hl Hs].
  pose proof (width_kept_Update now m msg Hz Hw) as Hw'.
  unfold runUpdates in *. simpl. rewrite IH.
  - unfold displayedError. rewrite Hl, Hs.
    by rewrite !decide_False by done.
  - by rewrite keyMap_Update.
  - done.
Qed.

End ControllerFacts.

(** C5, in the form that holds.  A [ServerStatusMsg] with an error puts the
    error into the slot.  While the window size is not known, [width] being
    0, the screen says "Initializing..." and shows no error.  With a known
    window size the error is on the screen, and it stays there over every
    sequence of messages that are neither the clear-error key, nor a
    [ServerStatusMsg], nor a window-size message of width 0.  The clear-error
    key empties the slot; a [ServerStatusMsg] with an error replaces it; a
    [ServerStatusMsg] without an error takes it off the screen and leaves its
    text in [lastError]; a window-size message of width 0 takes the whole
    dashboard off the screen and leaves the slot as it is. *)
Theorem error_shown_until_cleared_or_next_status
    (m : DashboardModel) (now : Time) (s : ServerStatusMsg) (e : error) :
  msg_Error s = Some e →
  let m1 := fst (Update now m (StatusMsg s)) in
  lastError m1 = e ∧ showError m1 = true ∧
  (width m = 0 → displayedError m1 = None) ∧
  (width m ≠ 0 →
   displayedError m1 = Some e ∧
   (∀ msgs,
      Forall (λ tm, touchesError (keyMap m) (snd tm) = false ∧
                    zeroWidth (snd tm) = false) msgs →
      displayedError (runUpdates m1 msgs) = Some e) ∧
   (∀ now' k, isClearKey (keyMap m) k = true →
      let m2 := fst (Update now' m1 (KeyMsg k)) in
      displayedError m2 = None ∧ lastError m2 = "") ∧
   (∀ now' s' e', msg_Error s' = Some e' →
      displayedError (fst (Update now' m1 (StatusMsg s'))) = Some e') ∧
   (∀ now' s', msg_Error s' = None →
      let m2 := fst (Update now' m1 (StatusMsg s')) in
      displayedError m2 = None ∧ lastError m2 = e) ∧
   (∀ now' h,
      let m2 := fst (Update now' m1 (WindowSizeMsg 0 h)) in
      displayedError m2 = None ∧ lastError m2 = e ∧ showError m2 = true)).
Proof.
  intros He m1.
  assert (lastError m1 = e ∧ showError m1 = true) as [Hl Hs].
  { subst m1. simpl. destruct (applyStatus_error now s m) as [-> ->].
    rewrite He. done. }
  assert (keyMap m1 = keyMap m) as Hkm by apply keyMap_Update.
  assert (width m1 = width m) as Hwm by apply applyStatus_width.
  split_and!; [done | done | |].
  { intros Hw. unfold displayedError. rewrite Hwm, Hw. done. }
  intros Hw.
  assert (displayedError m1 = Some e) as Hshown.
  { unfold displayedError. rewrite Hwm, Hs, Hl. by rewrite decide_False. }
  split_and!.
  - done.
  - intros msgs Hall. rewrite shown_kept_runUpdates; [done | | congruence].
    by rewrite Hkm.
  - intros now' k Hclear m2. subst m2.
    unfold displayedError. rewrite width_Update, Hwm.
    rewrite decide_False by done.
    simpl. rewrite <- Hkm in Hclear.
    unfold isClearKey in Hclear. unfold updateKey.
    repeat (match goal with
            | H : context [Matches ?k ?b] |- _ =>
                destruct (Matches k b); simpl in H; try done
            end).
  - intros now' s' e' He'. unfold displayedError.
    rewrite width_Update, Hwm. rewrite decide_False by done. simpl.
    destruct (applyStatus_error now' s' m1) as [-> ->]. by rewrite He'.
  - intros now' s' He' m2. subst m2. unfold displayedError.
    rewrite width_Update, Hwm. rewrite decide_False by done. simpl.
    destruct (applyStatus_error now' s' m1) as [-> ->]. by rewrite He'.
  - intros now' h m2. subst m2. by simpl.
Qed.

Lemma error_shown_until_cleared_or_next_status_witness :
  let failed := mkStatusMsg ServerStopped 0
                  (Some "failed to build WASM: exit status 2") in
  let m1 := fst (Update 1 sized8080 (StatusMsg failed)) in
  displayedError m1 = Some "failed to build WASM: exit status 2" ∧
  displayedError (runUpdates m1 [(2, KeyMsg "tab"); (3, tickMsg 3);
                                 (4, WindowSizeMsg 120 40);
                                 (5, LogsUpdatedMsg [])]) =
    Some "failed to build WASM: exit status 2" ∧
  displayedError (fst (Update 6 m1 (KeyMsg "c"))) = None ∧
  displayedError (fst (Update 1 model8080 (StatusMsg failed))) = None.
Proof.
  intros failed m1.
  destruct (error_shown_until_cleared_or_next_status sized8080 1 failed
              "failed to build WASM: exit status 2" eq_refl)
    as (_ & _ & _ & Hsized).
  destruct Hsized as (Hshown & Hkept & Hclear & _); [done|].
  destruct (error_shown_until_cleared_or_next_status model8080 1 failed
              "failed to build WASM: exit status 2" eq_refl)
    as (_ & _ & Hblank & _).
  split_and!; [exact Hshown | | | exact (Hblank eq_refl)].
  - apply Hkept. repeat constructor.
  - apply (Hclear 6 "c"). vm_compute. reflexivity.
Defined.

(** C5 does not hold as stated: the error of a failed start is on the
    screen, and the answer of the next status check, which is neither the
    clear-error key nor a newer error, takes it off. *)
Lemma error_hidden_by_next_status_check :
  let failed := mkStatusMsg ServerStopped 0
                  (Some "failed to build WASM: exit status 2") in
  let polled := mkStatusMsg ServerStopped 0 None in
  let m1 := fst (Update 1 sized8080 (StatusMsg failed)) in
  let m2 := fst (Update 2 m1 (StatusMsg polled)) in
  width m1 = 80 ∧ width m2 = 80 ∧
  displayedError m1 = Some "failed to build WASM: exit status 2" ∧
  touchesError (keyMap m1) (KeyMsg "c") = true ∧
  msg_Error polled = None ∧
  displayedError m2 = None ∧
  lastError m2 = "failed to build WASM: exit status 2".
Proof. intros failed polled m1 m2. by vm_compute. Qed.

(** * More of the package *)

(** ** The log sink and the output relay *)

Section MoreLoggerFacts.

Implicit Types (l : Logger) (cs : list LogCall).

Lemma mirrored_logAll cs : ∀ l,
  mirrored (logAll cs l) = mirrored l ++ (entryOf <$> cs).
Proof.
  induction cs as [|c cs IH]; intros l; simpl.
  - by rewrite app_nil_r.
  - unfold logAll in *. simpl. rewrite IH. unfold doLog, Log. simpl.
    by rewrite <- app_assoc.
Qed.

Lemma Read_logAll (sr : StreamReader) scanned : ∀ l,
  Read sr scanned l = logAll (relayCalls sr scanned) l.
Proof.
  unfold Read, relayCalls, logAll.
  induction scanned as [|[t line] scanned IH]; intros l; [done|].
  rewrite filter_cons. simpl.
  destruct (decide (TrimSpace line = "")) as [Hblank|Hline].
  - rewrite decide_False by (by intros ?). apply IH.
  - rewrite decide_True by done. simpl. apply IH.
Qed.

(** Any answer of [GetRecentLogs] with a positive limit is the last
    [limit] entries of the buffer, or all of them if there are fewer. *)
Lemma GetRecentLogs_drop l limit :
  0 < limit →
  GetRecentLogs l limit = drop (length (entries l) - Z.to_nat limit) (entries l).
Proof.
  intros Hpos.
  destruct (decide (Z.of_nat (length (entries l)) < limit)) as [Hbig|Hfit].
  - rewrite GetRecentLogs_all by lia.
    by replace (length (entries l) - Z.to_nat limit)%nat with 0%nat by lia.
  - apply GetRecentLogs_last. lia.
Qed.

Lemma length_append (s1 s2 : string) :
  String.length (s1 +:+ s2) = (String.length s1 + String.length s2)%nat.
Proof. induction s1 as [|c s1 IH]; simpl; [done | by rewrite IH]. Qed.

Lemma length_sliceTo (n : nat) (s : string) :
  String.length (sliceTo n s) = (n `min` String.length s)%nat.
Proof.
  unfold sliceTo. revert n.
  induction s as [|c s IH]; intros [|n]; simpl; try done.
  by rewrite IH.
Qed.

End MoreLoggerFacts.

(** X1.  After any sequence of calls of [Log] on the fresh logger the buffer
    holds [min N 500] entries, every entry logged has been handed to a file
    writer, once and in order, and the buffer is the tail of what was handed
    over: eviction from memory loses nothing from the file. *)
Theorem buffer_is_tail_of_mirror (cs : list LogCall) :
  let l := logAll cs newLogger in
  length (entries l) = (length cs `min` 500)%nat ∧
  mirrored l = entryOf <$> cs ∧
  entries l = drop (length (mirrored l) - 500) (mirrored l).
Proof.
  intros l. subst l.
  rewrite mirrored_logAll, entries_logAll by (simpl; lia). simpl.
  rewrite length_drop, !length_fmap. split_and!; [lia | done | done].
Qed.

(** X2.  [Read] logs one entry for each scanned line that is not blank, in
    the order of the lines, and nothing for a blank line; every entry it
    logs carries the reader's source and level and a message that is the
    trimmed line and is not empty. *)
Theorem Read_logs_the_nonblank_lines
    (sr : StreamReader) (scanned : list (Time * string)) (l : Logger) :
  let kept := filter (λ tl, TrimSpace (snd tl) ≠ "") scanned in
  let new := (λ tl, mkLogEntry (fst tl) (sr_level sr) (sr_source sr)
                               (TrimSpace (snd tl))) <$> kept in
  mirrored (Read sr scanned l) = mirrored l ++ new ∧
  Forall (λ e, Source e = sr_source sr ∧ Level e = sr_level sr ∧
               Message e ≠ "") new ∧
  ((length (entries l) ≤ 500)%nat →
   entries (Read sr scanned l) =
     drop (length (entries l) + length new - 500) (entries l ++ new)).
Proof.
  intros kept new.
  assert (entryOf <$> relayCalls sr scanned = new) as Hnew.
  { unfold relayCalls, new, kept. rewrite <- list_fmap_compose. done. }
  rewrite Read_logAll, mirrored_logAll, Hnew. split_and!; [done | |].
  - unfold new. apply Forall_fmap, Forall_forall. intros tl Hin.
    apply list_elem_of_filter in Hin as [Hline _]. done.
  - intros Hlen. rewrite entries_logAll by done.
    rewrite Hnew. f_equal. f_equal. f_equal.
    by rewrite <- Hnew, length_fmap.
Qed.

Lemma Read_logs_the_nonblank_lines_witness :
  let sr := NewStreamReader "server" LogError in
  entries (Read sr [(1, "  listen tcp :8080: bind failed "); (2, "   ");
                    (3, ""); (4, "exit status 1")] newLogger) =
    [mkLogEntry 1 LogError "server" "listen tcp :8080: bind failed";
     mkLogEntry 4 LogError "server" "exit status 1"].
Proof.
  intros sr.
  destruct (Read_logs_the_nonblank_lines sr
              [(1, "  listen tcp :8080: bind failed "); (2, "   ");
               (3, ""); (4, "exit status 1")] newLogger) as (_ & _ & Hbuf).
  rewrite Hbuf by (simpl; lia). vm_compute. reflexivity.
Defined.

(** X3.  [GetLogsBySource] answers with entries of the buffer, in the order
    of the buffer, and always with a tail of the matching ones; when the
    limit is not positive, or not below their number, it answers with every
    entry of the buffer that has the source. *)
Theorem EntriesBySource_complete_without_limit
    (l : Logger) (source : string) (limit : Z) :
  let matching := filter (λ e, Source e = source) (entries l) in
  GetLogsBySource l source limit `sublist_of` entries l ∧
  GetLogsBySource l source limit `suffix_of` matching ∧
  (limit ≤ 0 ∨ Z.of_nat (length matching) ≤ limit →
   GetLogsBySource l source limit = matching ∧
   ∀ e, e ∈ entries l → Source e = source →
        e ∈ GetLogsBySource l source limit).
Proof.
  intros matching. unfold GetLogsBySource. fold matching.
  split_and!.
  - destruct (_ && _).
    + etrans; [apply sublist_drop | apply sublist_filter].
    + apply sublist_filter.
  - destruct (_ && _); [apply suffix_drop | done].
  - intros Hlim.
    replace ((0 <? limit) && (limit <? Z.of_nat (length matching)))
      with false by (symmetry; apply andb_false_iff; lia).
    split; [done|]. intros e Hin Hsrc.
    apply list_elem_of_filter. done.
Qed.

Lemma EntriesBySource_complete_without_limit_witness :
  GetLogsBySource mixedLogger "cli" 0 =
    [mkLogEntry 1 LogSystem "cli" "Building WASM...";
     mkLogEntry 3 LogSystem "cli" "Server startup completed"].
Proof.
  destruct (EntriesBySource_complete_without_limit mixedLogger "cli" 0)
    as (_ & _ & Hall).
  destruct Hall as [-> _]; [left; lia|]. vm_compute. reflexivity.
Defined.

(** X4.  When the answer of [loadSystemLogs] has gone through [Update], the
    model holds the newest 50 entries of the buffer and the logs tab lists
    the newest 20, oldest first; a message cell is the message, or its
    first 42 bytes and three dots if it is longer than 45 bytes, so never
    longer than 45 bytes.  The command itself changes nothing. *)
Theorem logs_tab_shows_the_newest_20 `{OSModel}
    (now : Time) (m : DashboardModel) (w : World) :
  let buffer := entries (w_logger w) in
  let m' := fst (Update now m (fst (loadSystemLogs m w))) in
  snd (loadSystemLogs m w) = w ∧
  logs m' = drop (length buffer - 50) buffer ∧
  logsTabRows m' = drop (length buffer - 20) buffer ∧
  (length (logsTabRows m') ≤ 20)%nat ∧
  ∀ log, (String.length (messageCell log) ≤ 45)%nat.
Proof.
  intros buffer m'.
  assert (logs m' = drop (length buffer - 50) buffer) as Hlogs.
  { subst m'. simpl. by rewrite GetRecentLogs_drop. }
  assert (logsTabRows m' = drop (length buffer - 20) buffer) as Hrows.
  { unfold logsTabRows. rewrite Hlogs, length_drop.
    destruct (Z.ltb_spec 20 (Z.of_nat (length buffer - (length buffer - 50)))).
    - rewrite drop_drop. f_equal. lia.
    - rewrite <- (drop_0 (drop _ buffer)), drop_drop. f_equal. lia. }
  split_and!; [done | done | done | |].
  - rewrite Hrows, length_drop. lia.
  - intros log. unfold messageCell.
    destruct (Z.ltb_spec 45 (Z.of_nat (String.length (Message log)))).
    + rewrite length_append, length_sliceTo.
      change (String.length "...") with 3%nat. lia.
    + lia.
Qed.

(** ** The controller *)

Section MoreControllerFacts.

Implicit Types (m : DashboardModel) (msg : Msg) (now : Time).

(** What no message changes: the port, the key bindings, the tabs; and the
    uptime never grows. *)
Lemma Update_keeps now m msg :
  let m' := fst (Update now m msg) in
  Port (server m') = Port (server m) ∧ keyMap m' = keyMap m ∧
  tabs m' = tabs m ∧
  (Uptime (server m') = Uptime (server m) ∨ Uptime (server m') = 0).
Proof.
  destruct msg; simpl; try (split_and!; (done || by left)).
  - unfold updateKey.
    repeat (match goal with
            | |- context [if ?c then _ else _] => destruct c
            end; simpl; try (split_and!; (done || by left))).
  - unfold applyStatus. destruct s as [st pid oe], m. simpl.
    destruct oe, st, startTime0; simpl; split_and!;
      (done || (by left) || (by right)).
Qed.

End MoreControllerFacts.

(** X5.  [Update] hands out the start command only while the model says
    [ServerStopped], and the stop and restart commands only while it says
    [ServerRunning]; each of them closes over the model as it is. *)
Theorem commands_are_guarded_by_status
    (now : Time) (m m' : DashboardModel) (msg : Msg) :
  (snd (Update now m msg) = CmdStartServer m' →
   m' = m ∧ Status (server m) = ServerStopped) ∧
  (snd (Update now m msg) = CmdStopServer m' →
   m' = m ∧ Status (server m) = ServerRunning) ∧
  (snd (Update now m msg) = CmdRestartServer m' →
   m' = m ∧ Status (server m) = ServerRunning).
Proof.
  destruct msg; simpl; try (split_and!; discriminate).
  unfold updateKey.
  repeat (match goal with
          | |- context [if ?c then _ else _] => destruct c
          end; simpl; try (split_and!; (discriminate || by intros [= ->]))).
Qed.

Lemma commands_are_guarded_by_status_witness :
  Status (server model8080) = ServerStopped ∧
  snd (Update 1 model8080 (KeyMsg "x")) = CmdNil ∧
  snd (Update 1 model8080 (KeyMsg "r")) = CmdNil.
Proof.
  destruct (commands_are_guarded_by_status 1 model8080 model8080 (KeyMsg "s"))
    as (Hstart & _ & _).
  split_and!; [apply Hstart | |]; reflexivity.
Defined.

Section RunFacts.

(** What no sequence of messages changes. *)
Lemma runUpdates_keeps (msgs : list (Time * Msg)) : ∀ m,
  Port (server (runUpdates m msgs)) = Port (server m) ∧
  keyMap (runUpdates m msgs) = keyMap m ∧
  tabs (runUpdates m msgs) = tabs m ∧
  (Uptime (server m) = 0 → Uptime (server (runUpdates m msgs)) = 0).
Proof.
  induction msgs as [|[now msg] msgs IH]; intros m; [done|].
  unfold runUpdates in *. simpl.
  destruct (Update_keeps now m msg) as (Hp & Hk & Ht & Hu).
  destruct (IH (fst (Update now m msg))) as (IHp & IHk & IHt & IHu).
  split_and!; [congruence | congruence | congruence |].
  intros Hzero. apply IHu. destruct Hu; congruence.
Qed.

End RunFacts.

(** X6.  Over any sequence of messages the port, the key bindings and the
    list of tabs of the model stay what they were. *)
Theorem port_keys_and_tabs_are_fixed
    (m : DashboardModel) (msgs : list (Time * Msg)) :
  Port (server (runUpdates m msgs)) = Port (server m) ∧
  keyMap (runUpdates m msgs) = keyMap m ∧
  tabs (runUpdates m msgs) = tabs m.
Proof.
  destruct (runUpdates_keeps msgs m) as (Hp & Hk & Ht & _). done.
Qed.

(** X7.  [updateUptime] works on a copy of the model, so no message ever
    raises the uptime: in a model that starts with uptime 0, as the one of
    [NewDashboardModel] does, it is 0 after every sequence of messages. *)
Theorem uptime_stays_zero (m : DashboardModel) (msgs : list (Time * Msg)) :
  Uptime (server m) = 0 → Uptime (server (runUpdates m msgs)) = 0.
Proof. apply runUpdates_keeps. Qed.

Lemma uptime_stays_zero_witness :
  let running := mkStatusMsg ServerRunning 4242 None in
  let m := runUpdates model8080
             [(1000, StatusMsg running); (2000, tickMsg 2000);
              (3000, tickMsg 3000); (4000, StatusMsg running)] in
  Status (server m) = ServerRunning ∧ startTime m = Some 0 ∧
  Uptime (server (updateUptime 4000 m)) = 4000 ∧
  Uptime (server m) = 0.
Proof.
  intros running m.
  split_and!; [reflexivity | reflexivity | reflexivity |].
  apply uptime_stays_zero. reflexivity.
Defined.

(** X8.  With the selected tab within the tabs, the next-tab key moves it
    one to the right and the previous-tab key one to the left, both around
    the ends, so it stays within the tabs; nothing else of the model changes
    and no command is issued; each key undoes the other. *)
Theorem tab_keys_cycle_through_the_tabs
    (now : Time) (m : DashboardModel) (k : string) :
  let n := Z.of_nat (length (tabs m)) in
  let next := setSelectedTab ((selectedTab m + 1) `mod` n) m in
  let prev := setSelectedTab ((selectedTab m - 1) `mod` n) m in
  0 ≤ selectedTab m < n →
  (isNextTabKey (keyMap m) k = true →
     Update now m (KeyMsg k) = (next, CmdNil) ∧
     0 ≤ selectedTab next < n ∧
     ∀ now' k', isPrevTabKey (keyMap m) k' = true →
                fst (Update now' next (KeyMsg k')) = m) ∧
  (isPrevTabKey (keyMap m) k = true →
     Update now m (KeyMsg k) = (prev, CmdNil) ∧
     0 ≤ selectedTab prev < n ∧
     ∀ now' k', isNextTabKey (keyMap m) k' = true →
                fst (Update now' prev (KeyMsg k')) = m).
Proof.
  intros n next prev Hsel.
  assert (∀ k, isNextTabKey (keyMap m) k = true → ∀ m0,
            keyMap m0 = keyMap m → length (tabs m0) = length (tabs m) →
            0 ≤ selectedTab m0 < n →
            updateKey k m0 =
              (setSelectedTab ((selectedTab m0 + 1) `mod` n) m0, CmdNil))
    as Hnext.
  { intros k0 Hk m0 Hkm Htabs Hsel0.
    unfold isNextTabKey in Hk. unfold updateKey. rewrite Hkm, Htabs.
    repeat (match goal with
            | H : context [Matches ?k ?b] |- _ =>
                destruct (Matches k b); simpl in H; try done
            end).
    fold n. by rewrite Z.rem_mod_nonneg by lia. }
  assert (∀ k, isPrevTabKey (keyMap m) k = true → ∀ m0,
            keyMap m0 = keyMap m → length (tabs m0) = length (tabs m) →
            0 ≤ selectedTab m0 < n →
            updateKey k m0 =
              (setSelectedTab ((selectedTab m0 - 1) `mod` n) m0, CmdNil))
    as Hprev.
  { intros k0 Hk m0 Hkm Htabs Hsel0.
    unfold isPrevTabKey in Hk. unfold updateKey. rewrite Hkm, Htabs.
    repeat (match goal with
            | H : context [Matches ?k ?b] |- _ =>
                destruct (Matches k b); simpl in H; try done
            end).
    fold n. rewrite Z.rem_mod_nonneg by lia.
    replace (selectedTab m0 - 1 + n) with (selectedTab m0 - 1 + 1 * n) by lia.
    by rewrite Z.mod_add by lia. }
  assert (0 ≤ (selectedTab m + 1) `mod` n < n) by (apply Z.mod_pos_bound; lia).
  assert (0 ≤ (selectedTab m - 1) `mod` n < n) by (apply Z.mod_pos_bound; lia).
  split.
  - intros Hk. simpl. rewrite (Hnext k Hk m) by done.
    split; [done|]. split; [done|].
    intros now' k' Hk'. simpl. rewrite (Hprev k' Hk' next) by done.
    subst next. destruct m. unfold setSelectedTab. simpl in *. f_equal.
    rewrite Zminus_mod_idemp_l. replace (selectedTab0 + 1 - 1) with selectedTab0
      by lia. apply Z.mod_small. lia.
  - intros Hk. simpl. rewrite (Hprev k Hk m) by done.
    split; [done|]. split; [done|].
    intros now' k' Hk'. simpl. rewrite (Hnext k' Hk' prev) by done.
    subst prev. destruct m. unfold setSelectedTab. simpl in *. f_equal.
    rewrite Zplus_mod_idemp_l. replace (selectedTab0 - 1 + 1) with selectedTab0
      by lia. apply Z.mod_small. lia.
Qed.

Lemma tab_keys_cycle_through_the_tabs_witness :
  let last := setSelectedTab 2 model8080 in
  fst (Update 1 last (KeyMsg "tab")) = setSelectedTab 0 model8080 ∧
  fst (Update 1 model8080 (KeyMsg "left")) = setSelectedTab 2 model8080.
Proof.
  intros last. split.
  - destruct (tab_keys_cycle_through_the_tabs 1 last "tab") as [Hnext _];
      [simpl; lia|].
    destruct Hnext as [-> _]; reflexivity.
  - destruct (tab_keys_cycle_through_the_tabs 1 model8080 "left")
      as [_ Hprev]; [simpl; lia|].
    destruct Hprev as [-> _]; reflexivity.
Defined.

(** ** The supervisor *)

Section MoreSupervisorFacts.

Context `{OSModel}.

Implicit Types (w : World) (m : DashboardModel).

Lemma failStart_run ctx what e w :
  failStart ctx what e w =
    (mkStatusMsg ServerStopped 0 (Some ("failed to " +:+ what +:+ ": " +:+ e)),
     mkWorld (w_os w)
       (Log (os_now (w_os w)) LogError "cli"
            ("Failed to " +:+ what +:+ ": " +:+ e) (w_logger w))
       (currentServer w) (w_trace w ++ [EvCancel ctx]) (w_ctxs w)).
Proof. unfold failStart. exec. done. Qed.

Lemma startServer_free_outcome m w :
  fst (isPortInUse (Port (server m)) w) = false →
  failedStart w (fst (startServer m w)) (snd (startServer m w)) ∨
  spawnedStart m w (fst (startServer m w)) (snd (startServer m w)).
Proof.
  destruct (os_run "lsof" (lsofArgs "-i" (Port (server m))) (w_os w))
    as [r0 o0] eqn:Hlsof.
  rewrite (isPortInUse_run _ _ _ _ Hlsof). cbn [fst].
  intros Hfree. unfold startServer. exec_step. rewrite Hfree. exec.
  destruct (os_run "make" ["wasm"] o0) as [r1 o1] eqn:Hwasm. exec_step.
  destruct (err r1) as [e1|].
  { rewrite failStart_run. left. eexists "build WASM", e1, [_; _], _.
    cbn [fst snd w_trace currentServer w_logger w_os].
    split_and!; [done | by rewrite <- !app_assoc | done | done | done
                 | apply last_entries_Log]. }
  exec.
  destruct (os_run "make" ["server"] o1) as [r2 o2] eqn:Hserver. exec_step.
  destruct (err r2) as [e2|].
  { rewrite failStart_run. left. eexists "build server", e2, [_; _; _], _.
    cbn [fst snd w_trace currentServer w_logger w_os].
    split_and!; [done | by rewrite <- !app_assoc | done | done | done
                 | apply last_entries_Log]. }
  exec.
  destruct (os_pipe o2) as [[e3|] o3] eqn:Hout; exec_step.
  { rewrite failStart_run. left.
    eexists "create stdout pipe", e3, [_; _; _], _.
    cbn [fst snd w_trace currentServer w_logger w_os].
    split_and!; [done | by rewrite <- !app_assoc | done | done | done
                 | apply last_entries_Log]. }
  destruct (os_pipe o3) as [[e4|] o4] eqn:Herr; exec_step.
  { rewrite failStart_run. left.
    eexists "create stderr pipe", e4, [_; _; _], _.
    cbn [fst snd w_trace currentServer w_logger w_os].
    split_and!; [done | by rewrite <- !app_assoc | done | done | done
                 | apply last_entries_Log]. }
  destruct (os_start "./bin/server"
              ["-dev"; "-port"; Itoa (Port (server m))] o4)
    as [[e5|pid] o5] eqn:Hstart; exec_step.
  { rewrite failStart_run. left. eexists "start server", e5, [_; _; _], _.
    cbn [fst snd w_trace currentServer w_logger w_os].
    split_and!; [done | by rewrite <- !app_assoc | done | done | done
                 | apply last_entries_Log]. }
  exec. right. exists pid. unfold ret. cbn [fst snd w_trace currentServer].
  split_and!; [done | by rewrite <- !app_assoc | done].
Qed.

(** What every stop adds to the trace: no build, no spawn, and the signals
    that its branch sends. *)
Lemma stopServer_effects m w :
  ∃ evs, w_trace (snd (stopServer m w)) = w_trace w ++ evs ∧
         spawned evs = [] ∧ builds evs = [] ∧
         match currentServer w with
         | Some sp =>
             match cmd sp ≫= Process with
             | Some pid =>
                 match fst (os_getpgid pid (w_os w)) with
                 | inr pgid =>
                     signals evs = [(- pgid, SIGTERM); (pid, SIGKILL)]
                 | inl _ => signals evs = [(pid, SIGKILL)]
                 end
             | None => signals evs = []
             end
         | None =>
             signals evs = [] ∨
             (∃ p, 0 < p ∧ signals evs = [(p, SIGTERM)]) ∨
             (∃ p, 0 < p ∧ signals evs = [(p, SIGTERM); (p, SIGKILL)])
         end.
Proof.
  destruct (currentServer w) as [sp|] eqn:Hcur.
  - destruct (cmd sp ≫= Process) as [pid|] eqn:Hproc.
    + destruct (os_getpgid pid (w_os w)) as [[e|pgid] o1] eqn:Hpg.
      * destruct (os_kill pid SIGKILL o1) as [r' o3] eqn:Hkill.
        rewrite (stopServer_held_nogroup m w sp pid e o1 r' o3) by done.
        eexists. split_and!; done.
      * destruct (os_kill (- pgid) SIGTERM o1) as [r o2] eqn:Hterm.
        destruct (os_kill pid SIGKILL o2) as [r' o3] eqn:Hkill.
        rewrite (stopServer_held_group m w sp pid pgid o1 r o2 r' o3) by done.
        eexists. split_and!; done.
    + rewrite (stopServer_held_unstarted m w sp) by done.
      eexists. split_and!; done.
  - destruct (os_run "lsof" (lsofArgs "-ti" (Port (server m))) (w_os w))
      as [r o1] eqn:Hlsof.
    destruct (decide (0 < pidOf r)) as [Hpid|Hpid].
    + destruct (os_kill (pidOf r) SIGTERM o1) as [[e|] o2] eqn:Hterm.
      * destruct (os_kill (pidOf r) SIGKILL o2) as [r' o3] eqn:Hkill.
        rewrite (stopServer_free_kill m w r o1 e o2 r' o3) by done.
        eexists. split_and!; [done | done | done | right; right; by eexists].
      * rewrite (stopServer_free_term m w r o1 o2) by done.
        eexists. split_and!; [done | done | done | right; left; by eexists].
    + rewrite (stopServer_free_nobody m w r o1) by (done || lia).
      eexists. split_and!; [done | done | done | by left].
Qed.

Lemma restartServer_unfold m w :
  let w0 := snd (logMsg LogSystem "cli" "Restarting server..." w) in
  let w1 := snd (stopServer m w0) in
  let waiting := snd (logMsg LogSystem "cli" "Waiting for cleanup..." w1) in
  let w2 := snd (sleep 2000 waiting) in
  let w3 := snd (logMsg LogSystem "cli" "Starting server again..." w2) in
  restartServer m w = startServer m w3.
Proof.
  intros w0 w1 waiting w2 w3. unfold restartServer. exec_step.
  rewrite (bind_run (stopServer m) _ _ _ w1)
    by (subst w1 w0; apply surjective_pairing).
  exec. done.
Qed.

Lemma spawned_app t1 t2 : spawned (t1 ++ t2) = spawned t1 ++ spawned t2.
Proof. apply omap_app. Qed.

Lemma builds_app t1 t2 : builds (t1 ++ t2) = builds t1 ++ builds t2.
Proof. apply omap_app. Qed.

Lemma signals_app t1 t2 : signals (t1 ++ t2) = signals t1 ++ signals t2.
Proof. apply omap_app. Qed.

End MoreSupervisorFacts.

(** X9.  When [startServer] finds the port free and answers
    [ServerRunning], it has run [make wasm] and then [make server], spawned
    exactly one child, whose PID it answers with, started the two relays for
    that child, sent no signal, and holds the child as [currentServer]
    together with the context it made for it. *)
Theorem Start_answering_Running_on_free_port `{OSModel}
    (m : DashboardModel) (w : World) :
  let r := fst (startServer m w) in
  let w' := snd (startServer m w) in
  let args := ["-dev"; "-port"; Itoa (Port (server m))] in
  fst (isPortInUse (Port (server m)) w) = false →
  msg_Status r = ServerRunning →
  msg_Error r = None ∧
  w_trace w' =
    w_trace w ++ [EvRun "lsof" (lsofArgs "-i" (Port (server m)));
                  EvRun "make" ["wasm"]; EvRun "make" ["server"];
                  EvSpawn "./bin/server" args (msg_PID r);
                  EvGo (StreamRead "server" LogInfo false (msg_PID r));
                  EvGo (StreamRead "server" LogError true (msg_PID r));
                  EvSleep 500] ∧
  spawned (w_trace w') = spawned (w_trace w) ++ [msg_PID r] ∧
  builds (w_trace w') = builds (w_trace w) ++ [["wasm"]; ["server"]] ∧
  signals (w_trace w') = signals (w_trace w) ∧
  currentServer w' =
    Some (mkServerProcess
            (Some (mkExecCmd "./bin/server" args (Some (msg_PID r))))
            (w_ctxs w)).
Proof.
  intros r w' args Hfree Hrun. subst r w'.
  destruct (startServer_free_outcome m w Hfree)
    as [(what & e & evs & t & Hr & _) | (pid & Hr & Ht & Hc)].
  { rewrite Hr in Hrun. done. }
  rewrite Hr, Ht, Hc. simpl.
  rewrite spawned_app, builds_app, signals_app. simpl.
  by rewrite app_nil_r.
Qed.

Lemma Start_answering_Running_on_free_port_witness :
  let w := initWorld (H := simOS) simFree in
  let w' := snd (@startServer simOS model8080 w) in
  fst (@startServer simOS model8080 w) = mkStatusMsg ServerRunning 4242 None ∧
  spawned (w_trace w') = [4242] ∧
  builds (w_trace w') = [["wasm"]; ["server"]] ∧
  currentServer w' =
    Some (mkServerProcess
            (Some (mkExecCmd "./bin/server" ["-dev"; "-port"; "8080"]
                             (Some 4242))) 0).
Proof.
  intros w w'.
  destruct (@Start_answering_Running_on_free_port simOS model8080 w)
    as (_ & _ & Hs & Hb & _ & Hc);
    [vm_compute; reflexivity | vm_compute; reflexivity |].
  split_and!; [vm_compute; reflexivity | exact Hs | exact Hb | exact Hc].
Defined.

(** X10.  Whenever [startServer] answers [ServerStopped], its answer has
    PID 0 and an error that starts with "failed to "; no child was spawned
    and no signal sent, the held process is the one held before, the last
    thing done was to cancel the context made for the attempt, and the
    newest log entry is at error level from source "cli". *)
Theorem Start_answering_Stopped `{OSModel} (m : DashboardModel) (w : World) :
  let r := fst (startServer m w) in
  let w' := snd (startServer m w) in
  msg_Status r = ServerStopped →
  msg_PID r = 0 ∧
  (∃ rest, msg_Error r = Some ("failed to " +:+ rest)) ∧
  spawned (w_trace w') = spawned (w_trace w) ∧
  signals (w_trace w') = signals (w_trace w) ∧
  currentServer w' = currentServer w ∧
  last (w_trace w') = Some (EvCancel (w_ctxs w)) ∧
  ∃ newest, last (entries (w_logger w')) = Some newest ∧
            Level newest = LogError ∧ Source newest = "cli".
Proof.
  intros r w' Hstopped. subst r w'.
  destruct (fst (isPortInUse (Port (server m)) w)) eqn:Hport.
  { destruct (startServer_occupied_effects m w Hport) as (Hr & _).
    rewrite Hr in Hstopped. done. }
  destruct (startServer_free_outcome m w Hport)
    as [(what & e & evs & t & Hr & Ht & Hs & Hg & Hc & Hl) | (pid & Hr & _)].
  2: { rewrite Hr in Hstopped. done. }
  rewrite Hr, Ht, Hc, Hl. simpl.
  rewrite !spawned_app, !signals_app, Hs, Hg, !app_assoc, last_snoc. simpl.
  rewrite !app_nil_r. split_and!; try done; by eexists.
Qed.

Lemma Start_answering_Stopped_witness :
  let w := initWorld (H := simOS) (mkSim 0 [] ["server"] 4242 true) in
  let w' := snd (@startServer simOS model8080 w) in
  msg_Error (fst (@startServer simOS model8080 w)) =
    Some "failed to build server: exit status 2" ∧
  builds (w_trace w') = [["wasm"]; ["server"]] ∧
  spawned (w_trace w') = [] ∧
  last (w_trace w') = Some (EvCancel 0).
Proof.
  intros w w'.
  destruct (@Start_answering_Stopped simOS model8080 w)
    as (_ & _ & Hs & _ & _ & Hlast & _); [vm_compute; reflexivity|].
  split_and!; [vm_compute; reflexivity | vm_compute; reflexivity
               | exact Hs | exact Hlast].
Defined.

(** X11.  A stop that follows a start which spawned, whatever the system did
    in between, cancels the context that start made, sends SIGTERM to the
    process group of the child that start spawned if [Getpgid] finds it,
    hands the wait for that child to a goroutine, has SIGKILL sent to that
    child by the cancelled context, and holds nothing afterwards. *)
Theorem Stop_after_Start_reaches_the_spawned_child `{OSModel}
    (m : DashboardModel) (w : World) (o : OS) (pgid : Z) :
  let pid := msg_PID (fst (startServer m w)) in
  let w1 := setOS o (snd (startServer m w)) in
  let w2 := snd (stopServer m w1) in
  fst (isPortInUse (Port (server m)) w) = false →
  msg_Status (fst (startServer m w)) = ServerRunning →
  fst (os_getpgid pid o) = inr pgid →
  w_trace w2 = w_trace w1 ++ [EvCancel (w_ctxs w); EvKill (- pgid) SIGTERM;
                              EvGo (WaitExit pid); EvKill pid SIGKILL] ∧
  currentServer w2 = None ∧
  fst (stopServer m w1) = mkStatusMsg ServerStopped 0 None.
Proof.
  intros pid w1 w2 Hfree Hrun Hpg. subst w2.
  destruct (startServer_free_outcome m w Hfree)
    as [(what & e & evs & t & Hr & _) | (pid' & Hr & Ht & Hc)].
  { rewrite Hr in Hrun. done. }
  assert (pid = pid') as <- by (subst pid; by rewrite Hr).
  destruct (os_getpgid pid o) as [[e|pgid'] o1] eqn:Hpg'; [done|].
  simpl in Hpg. injection Hpg as ->.
  destruct (os_kill (- pgid) SIGTERM o1) as [r o2] eqn:Hterm.
  destruct (os_kill pid SIGKILL o2) as [r' o3] eqn:Hkill.
  rewrite (stopServer_held_group m w1 _ pid pgid o1 r o2 r' o3 Hc); done.
Qed.

Lemma Stop_after_Start_reaches_the_spawned_child_witness :
  let w := initWorld (H := simOS) simFree in
  let started := snd (@startServer simOS model8080 w) in
  let w1 := @setOS simOS (sim_sleep 60000 (w_os started)) started in
  signals (w_trace (snd (@stopServer simOS model8080 w1))) =
    [(-4242, SIGTERM); (4242, SIGKILL)] ∧
  sim_listeners (w_os (snd (@stopServer simOS model8080 w1))) = [].
Proof.
  intros w started w1.
  destruct (@Stop_after_Start_reaches_the_spawned_child simOS model8080 w
              (sim_sleep 60000 (w_os started)) 4242) as (Ht & _);
    [vm_compute; reflexivity | vm_compute; reflexivity
     | vm_compute; reflexivity |].
  split; [|vm_compute; reflexivity].
  fold started in Ht. fold w1 in Ht. rewrite Ht. vm_compute. reflexivity.
Defined.


(** X13.  If the port is still in use when the cooldown of a restart is
    over, the restart spawns nothing and answers [ServerRunning] with the
    PID found on the port, while the supervisor holds no process any more. *)
Theorem Restart_with_port_still_in_use `{OSModel}
    (m : DashboardModel) (w : World) :
  let w0 := snd (logMsg LogSystem "cli" "Restarting server..." w) in
  let w1 := snd (stopServer m w0) in
  let waiting := snd (logMsg LogSystem "cli" "Waiting for cleanup..." w1) in
  let w2 := snd (sleep 2000 waiting) in
  let w3 := snd (logMsg LogSystem "cli" "Starting server again..." w2) in
  let port := Port (server m) in
  let w' := snd (restartServer m w) in
  fst (isPortInUse port w3) = true →
  fst (restartServer m w) =
    mkStatusMsg ServerRunning
      (fst (getProcessByPort port (snd (isPortInUse port w3)))) None ∧
  spawned (w_trace w') = spawned (w_trace w) ∧
  builds (w_trace w') = builds (w_trace w) ∧
  currentServer w' = None.
Proof.
  intros w0 w1 waiting w2 w3 port w' Hocc. subst w'.
  rewrite (restartServer_unfold m w). fold w0 w1 waiting w2 w3.
  destruct (startServer_occupied_effects m w3 Hocc) as (Hr & Ht & Hc & _).
  fold port in Hr, Ht. rewrite Hr, Ht, Hc.
  destruct (stopServer_result m w0) as (_ & Hnone & _).
  destruct (stopServer_effects m w0) as (evs & Hevs & Hs & Hb & _).
  assert (w_trace w3 = w_trace w ++ evs ++ [EvSleep 2000]) as ->.
  { subst w3 w2 waiting. simpl. fold w1. subst w1. rewrite Hevs.
    by rewrite <- app_assoc. }
  rewrite !spawned_app, !builds_app, Hs, Hb. simpl. rewrite !app_nil_r.
  split_and!; done.
Qed.

Lemma Restart_with_port_still_in_use_witness :
  let w := heldWorld (mkSim 0 [777] [] 4243 true) in
  let w' := snd (@restartServer simOS model8080 w) in
  fst (@restartServer simOS model8080 w) =
    mkStatusMsg ServerRunning 777 None ∧
  spawned (w_trace w') = [] ∧
  currentServer w' = None.
Proof.
  intros w w'.
  destruct (@Restart_with_port_still_in_use simOS model8080 w)
    as (Hr & Hs & _ & Hc); [vm_compute; reflexivity|].
  split_and!; [rewrite Hr; vm_compute; reflexivity | exact Hs | exact Hc].
Defined.

(** X14.  [checkServerStatus] only looks: it logs nothing, leaves the held
    process alone, builds, spawns and signals nothing, and never answers
    with an error.  It answers [ServerStopped], with PID 0, exactly when
    [isPortInUse] says no, and [ServerRunning] otherwise, whether or not the
    supervisor holds a process. *)
Theorem StatusCheck_only_looks `{OSModel} (m : DashboardModel) (w : World) :
  let r := fst (checkServerStatus m w) in
  let w' := snd (checkServerStatus m w) in
  let inUse := fst (isPortInUse (Port (server m)) w) in
  w_logger w' = w_logger w ∧ currentServer w' = currentServer w ∧
  spawned (w_trace w') = spawned (w_trace w) ∧
  builds (w_trace w') = builds (w_trace w) ∧
  signals (w_trace w') = signals (w_trace w) ∧
  msg_Error r = None ∧
  msg_Status r = (if inUse then ServerRunning else ServerStopped) ∧
  (inUse = false → msg_PID r = 0).
Proof.
  intros r w' inUse. subst r w' inUse.
  rewrite checkServerStatus_unfold.
  rewrite isPortInUse_unfold. simpl.
  destruct (bool_decide _); simpl.
  - rewrite getProcessByPort_unfold. simpl.
    rewrite <- app_assoc, spawned_app, builds_app, signals_app. simpl.
    rewrite !app_nil_r. split_and!; done.
  - rewrite spawned_app, builds_app, signals_app. simpl.
    rewrite !app_nil_r. split_and!; done.
Qed.

Lemma StatusCheck_only_looks_witness :
  let w := heldWorld simFree in
  fst (@checkServerStatus simOS model8080 w) =
    mkStatusMsg ServerStopped 0 None ∧
  is_Some (currentServer (snd (@checkServerStatus simOS model8080 w))).
Proof.
  intros w.
  destruct (@StatusCheck_only_looks simOS model8080 w)
    as (_ & Hc & _ & _ & _ & He & Hs & Hpid).
  split; [|rewrite Hc; by eexists].
  specialize (Hpid eq_refl).
  destruct (fst (@checkServerStatus simOS model8080 w)) as [st pid e].
  simpl in *. by subst.
Defined.

Section KillFacts.

Context `{OSModel}.

Lemma killProcessByPort_unfold port w r o1 :
  os_run "lsof" (lsofArgs "-ti" port) (w_os w) = (r, o1) →
  let w1 := mkWorld o1 (w_logger w) (currentServer w)
              (w_trace w ++ [EvRun "lsof" (lsofArgs "-ti" port)]) (w_ctxs w) in
  let pidStr := TrimSpace (stdout r) in
  killProcessByPort port w =
    match err r with
    | Some e => (Some (ErrLookup e), w1)
    | None =>
        if decide (pidStr = "") then (None, w1)
        else match Atoi pidStr with
             | None => (Some (ErrParse pidStr), w1)
             | Some pid =>
                 let t := kill pid SIGTERM w1 in
                 match fst t with
                 | None => (None, snd t)
                 | Some _ =>
                     let k := kill pid SIGKILL (snd t) in
                     (ErrKill <$> fst k, snd k)
                 end
             end
    end.
Proof.
  intros Hlsof w1 pidStr. unfold killProcessByPort.
  change ["-ti"; ":" +:+ Itoa port] with (lsofArgs "-ti" port).
  exec_step. fold w1 pidStr.
  destruct (err r); [done|]. case_decide; [done|].
  destruct (Atoi pidStr) as [pid|]; [|done].
  unfold bind, ret. destruct (kill pid SIGTERM w1) as [[e|] w2]; simpl; [|done].
  by destruct (kill pid SIGKILL w2).
Qed.

End KillFacts.

(** X15.  [killProcessByPort] returns the error of a failed listing, and
    the parse error when the trimmed output is not one integer, without
    sending a signal; on blank output it returns nil without sending one.
    Otherwise it sends SIGTERM to the integer parsed, positive or not; if
    that succeeds it returns nil and sends nothing more, and only if that
    fails it sends SIGKILL to the same PID and returns what that gives. *)
Theorem killProcessByPort_signals `{OSModel} (port : Z) (w : World) :
  let r := fst (os_run "lsof" (lsofArgs "-ti" port) (w_os w)) in
  let o1 := snd (os_run "lsof" (lsofArgs "-ti" port) (w_os w)) in
  let pidStr := TrimSpace (stdout r) in
  let answer := fst (killProcessByPort port w) in
  let sent := signals (w_trace (snd (killProcessByPort port w))) in
  (∀ e, err r = Some e →
     answer = Some (ErrLookup e) ∧ sent = signals (w_trace w)) ∧
  (err r = None → pidStr = "" →
     answer = None ∧ sent = signals (w_trace w)) ∧
  (err r = None → pidStr ≠ "" → Atoi pidStr = None →
     answer = Some (ErrParse pidStr) ∧ sent = signals (w_trace w)) ∧
  (∀ pid, err r = None → pidStr ≠ "" → Atoi pidStr = Some pid →
     match os_kill pid SIGTERM o1 with
     | (None, _) =>
         answer = None ∧ sent = signals (w_trace w) ++ [(pid, SIGTERM)]
     | (Some _, o2) =>
         answer = ErrKill <$> fst (os_kill pid SIGKILL o2) ∧
         sent = signals (w_trace w) ++ [(pid, SIGTERM); (pid, SIGKILL)]
     end).
Proof.
  intros r o1 pidStr answer sent. subst answer sent r o1 pidStr.
  destruct (os_run "lsof" (lsofArgs "-ti" port) (w_os w)) as [r o1] eqn:Hlsof.
  rewrite (killProcessByPort_unfold port w r o1 Hlsof). cbn [fst snd].
  split_and!.
  - intros e ->. simpl. rewrite signals_app. simpl. by rewrite app_nil_r.
  - intros -> Hblank. rewrite decide_True by done. simpl.
    rewrite signals_app. simpl. by rewrite app_nil_r.
  - intros -> Hstr ->. rewrite decide_False by done. simpl.
    rewrite signals_app. simpl. by rewrite app_nil_r.
  - intros pid -> Hstr ->. rewrite decide_False by done.
    destruct (os_kill pid SIGTERM o1) as [[e|] o2] eqn:Hterm.
    + rewrite (kill_run pid SIGTERM _ (Some e) o2) by done. cbn [fst snd].
      destruct (os_kill pid SIGKILL o2) as [r' o3] eqn:Hkill.
      rewrite (kill_run pid SIGKILL _ r' o3) by done. simpl.
      rewrite <- !app_assoc, signals_app. done.
    + rewrite (kill_run pid SIGTERM _ None o2) by done. simpl.
      rewrite <- !app_assoc, signals_app. done.
Qed.

Lemma killProcessByPort_signals_witness :
  let w := initWorld (H := simOS) simExternal in
  fst (@killProcessByPort simOS 8080 w) = None ∧
  signals (w_trace (snd (@killProcessByPort simOS 8080 w))) =
    [(777, SIGTERM)] ∧
  fst (@killProcessByPort simOS 8080 (initWorld (H := simOS) simShared)) =
    Some (ErrParse (unlines ["4242"] +:+ "4243")) ∧
  fst (@killProcessByPort simOS 8080 (initWorld (H := simOS) simFree)) =
    Some (ErrLookup "exit status 1").
Proof.
  intros w.
  destruct (@killProcessByPort_signals simOS 8080 w) as (_ & _ & _ & Hpid).
  specialize (Hpid 777 eq_refl).
  destruct (@killProcessByPort_signals simOS 8080
              (initWorld (H := simOS) simShared)) as (_ & _ & Hparse & _).
  destruct (@killProcessByPort_signals simOS 8080
              (initWorld (H := simOS) simFree)) as (Hlookup & _).
  split_and!.
  - apply Hpid; vm_compute; [discriminate | reflexivity].
  - apply Hpid; vm_compute; [discriminate | reflexivity].
  - apply Hparse; vm_compute; [reflexivity | discriminate | reflexivity].
  - apply (Hlookup "exit status 1"). vm_compute. reflexivity.
Defined.

(** X16.  The build command builds WASM before the server, and with neither
    flag given it does what it does with both.  It exits with status 0
    exactly when every [make] it was asked for returned no error, and with
    status 1 otherwise.  With status 0 every target asked for was made, the
    command's last line on standard output is "Build complete!" and it wrote
    no line of its own on standard error.  With status 1 "Build complete!"
    is not printed and the command's one line on standard error, the last
    thing on that stream, names the target that failed and the error of its
    [make].  When the WASM target is asked for and fails, the server target
    is not tried.  Each [make] that ran has its own output on both streams,
    in the order of the runs. *)
Theorem Build_stops_at_the_first_failure `{OSModel}
    (wasm server : bool) (w : World) :
  let out := fst (BuildCmd_Run wasm server w) in
  let w' := snd (BuildCmd_Run wasm server w) in
  let both := negb wasm && negb server in
  let wantWasm := wasm || both in
  let wantServer := server || both in
  let targets := (if wantWasm then [["wasm"]] else [])
                 ++ (if wantServer then [["server"]] else []) in
  let made1 := os_run "make" ["wasm"] (w_os w) in
  let e1 := if wantWasm then err (fst made1) else None in
  let made2 := os_run "make" ["server"]
                 (if wantWasm then snd made1 else w_os w) in
  let e2 := if wantServer then err (fst made2) else None in
  let ran := children (on_stdout (terminal out)) in
  BuildCmd_Run false false w = BuildCmd_Run true true w ∧
  builds (w_trace w') = builds (w_trace w) ++ ran ∧
  children (on_stderr (terminal out)) = ran ∧
  (exit_status out = 0 ∨ exit_status out = 1) ∧
  (exit_status out = 0 ↔ (e1 = None ∧ e2 = None)) ∧
  (exit_status out = 0 →
     ran = targets ∧
     ownLines (on_stderr (terminal out)) = [] ∧
     last (on_stdout (terminal out)) = Some (Line "Build complete!")) ∧
  (∀ e, e1 = Some e →
     exit_status out = 1 ∧ ran = [["wasm"]] ∧
     ownLines (on_stdout (terminal out)) = ["Building WASM..."] ∧
     ownLines (on_stderr (terminal out)) = ["Error building WASM: " +:+ e] ∧
     last (on_stderr (terminal out)) =
       Some (Line ("Error building WASM: " +:+ e))) ∧
  (∀ e, e1 = None → e2 = Some e →
     exit_status out = 1 ∧ ran = targets ∧
     "Build complete!" ∉ ownLines (on_stdout (terminal out)) ∧
     ownLines (on_stderr (terminal out)) =
       ["Error building server: " +:+ e] ∧
     last (on_stderr (terminal out)) =
       Some (Line ("Error building server: " +:+ e))).
Proof.
  intros out w' both wantWasm wantServer targets made1 e1 made2 e2 ran.
  subst out w' targets ran e1 e2 made1 made2 wantWasm wantServer both.
  split; [done|].
  unfold BuildCmd_Run, runMakeTarget, run, bind, sys, emit, ret.
  destruct wasm, server; simpl;
    destruct (os_run "make" ["wasm"] (w_os w)) as [[out1 [e1|]] o1] eqn:Hwasm;
    simpl;
    try (destruct (os_run "make" ["server"] _) as [[out2 [e2|]] o2]; simpl);
    rewrite <- ?app_assoc, ?builds_app; simpl; rewrite ?app_nil_r;
    (split_and!;
     [ done
     | done
     | by (left + right)
     | split; [intros ?; by split_and! | by intros [? ?]]
     | intros Hzero; first [ discriminate Hzero | by split_and! ]
     | intros e He; first [ discriminate He
                          | injection He as <-; by split_and! ]
     | intros e He1 He2;
       first [ discriminate He1 | discriminate He2
             | injection He2 as <-;
               split_and!; [done | done | | done | done];
               repeat (apply not_elem_of_cons; split; [discriminate|]);
               apply not_elem_of_nil ] ]).
Qed.

Lemma Build_stops_at_the_first_failure_witness :
  let broken := initWorld (H := simOS) simBrokenWasm in
  let noServer := initWorld (H := simOS) (mkSim 0 [] ["server"] 4242 true) in
  fst (@BuildCmd_Run simOS false false broken) =
    mkBuildOutcome
      (mkTerminal [Line "Building WASM..."; FromChild "make" ["wasm"]]
                  [FromChild "make" ["wasm"];
                   Line "Error building WASM: exit status 2"]) 1 ∧
  builds (w_trace (snd (@BuildCmd_Run simOS false false broken))) =
    [["wasm"]] ∧
  exit_status (fst (@BuildCmd_Run simOS false false noServer)) = 1 ∧
  ownLines (on_stderr (terminal (fst (@BuildCmd_Run simOS false false
                                        noServer)))) =
    ["Error building server: exit status 2"] ∧
  last (on_stdout (terminal (fst (@BuildCmd_Run simOS false true
                                    (initWorld (H := simOS) simFree))))) =
    Some (Line "Build complete!").
Proof.
  intros broken noServer.
  destruct (@Build_stops_at_the_first_failure simOS false false broken)
    as (_ & Hb & _ & _ & _ & _ & Hwasm & _).
  destruct (Hwasm "exit status 2") as (_ & Hran & _);
    [vm_compute; reflexivity|].
  destruct (@Build_stops_at_the_first_failure simOS false false noServer)
    as (_ & _ & _ & _ & _ & _ & _ & Hserver).
  destruct (Hserver "exit status 2") as (Hone & _ & _ & Herr & _);
    [vm_compute; reflexivity | vm_compute; reflexivity |].
  destruct (@Build_stops_at_the_first_failure simOS false true
              (initWorld (H := simOS) simFree)) as (_ & _ & _ & _ & _ & Hok & _).
  destruct Hok as (_ & _ & Hlast); [vm_compute; reflexivity|].
  split_and!; [vm_compute; reflexivity | | exact Hone | exact Herr
               | exact Hlast].
  rewrite Hb, Hran. reflexivity.
Defined.

(** ** The request log *)

Section RequestFacts.

Lemma wrap64_small z : - 2 ^ 63 ≤ z < 2 ^ 63 → wrap64 z = z.
Proof. intros Hz. unfold wrap64. rewrite Z.mod_small; lia. Qed.

Lemma SplitLines_line (line rest : string) :
  noNewline line →
  SplitLines (line +:+ String (Strings.byte 10) rest) =
    line :: SplitLines rest.
Proof.
  unfold noNewline. induction line as [|c line IH]; intros Hno.
  - done.
  - simpl in *. apply not_elem_of_cons in Hno as [Hc Hno].
    destruct (Ascii.eqb_spec c (Strings.byte 10)) as [->|_]; [done|].
    by rewrite IH.
Qed.

Lemma SplitLines_unlines (ls : list string) :
  Forall noNewline ls → SplitLines (unlines ls) = ls ++ [""].
Proof.
  induction 1 as [|line ls Hline _ IH]; [done|].
  simpl. by rewrite SplitLines_line, IH.
Qed.

Lemma length_omap_le {A B} (f : A → option B) (l : list A) :
  (length (omap f l) ≤ length l)%nat.
Proof.
  induction l as [|x l IH]; csimpl; [done|]. destruct (f x); csimpl; lia.
Qed.

Lemma statusClass_hundreds (status k : Z) :
  0 < k → (statusClass status = k * 100 ↔ k * 100 ≤ status ≤ k * 100 + 99).
Proof.
  intros Hk. unfold statusClass.
  destruct (Z.le_gt_cases 0 status) as [Hpos|Hneg].
  - rewrite Z.quot_div_nonneg by lia.
    pose proof (Z.div_mod status 100 ltac:(lia)).
    pose proof (Z.mod_pos_bound status 100 ltac:(lia)). lia.
  - pose proof (Z.quot_opp_l status 100 ltac:(lia)) as Hopp.
    assert (0 ≤ Z.quot (- status) 100) by (apply Z.quot_pos; lia). lia.
Qed.

(** Each count of the loop is the number of requests of its class, as long
    as no count can overflow. *)
Lemma summaryLoop_counts (reqs : list RequestLog) : ∀ (acc : Z * gmap Z Z) B,
  (∀ k, 0 ≤ default 0 (snd acc !! k) ≤ B) →
  B + Z.of_nat (length reqs) < 2 ^ 63 →
  ∀ k,
    default 0
      (snd (foldl (λ acc req,
                     let k := statusClass (req_Status req) in
                     (wrap64 (fst acc + Milliseconds (req_Duration req)),
                      <[k := wrap64 (default 0 (snd acc !! k) + 1)]> (snd acc)))
                  acc reqs) !! k) =
    default 0 (snd acc !! k)
    + Z.of_nat (length (filter (λ r, statusClass (req_Status r) = k) reqs)).
Proof.
  induction reqs as [|req reqs IH]; intros acc B Hacc HB k; simpl.
  - lia.
  - simpl length in HB. rewrite Nat2Z.inj_succ in HB.
    rewrite (IH _ (B + 1)); simpl.
    + rewrite filter_cons.
      destruct (decide (statusClass (req_Status req) = k)) as [->|Hne].
      * rewrite lookup_insert_eq. simpl.
        rewrite wrap64_small by (specialize (Hacc k); lia). lia.
      * by rewrite lookup_insert_ne.
    + intros k'.
      destruct (decide (statusClass (req_Status req) = k')) as [->|Hne].
      * rewrite lookup_insert_eq. simpl.
        rewrite wrap64_small by (specialize (Hacc k'); lia).
        specialize (Hacc k'). lia.
      * rewrite lookup_insert_ne by done. specialize (Hacc k'). lia.
    + lia.
Qed.

End RequestFacts.

(** X17.  [loadRequestLogs] answers with no requests when the file is
    missing or cannot be read, and never with more than 51.  For a file of
    lines that each end in a line feed it reads the last 50 lines only, and
    answers with the requests of those among them that are not blank and
    that decode, in the order of the file. *)
Theorem loadRequestLogs_reads_the_last_50_lines
    (unmarshal : string → option RawRequest) (m : DashboardModel) :
  loadRequestLogs unmarshal m FileMissing = RequestLogsMsg [] ∧
  (∀ e, loadRequestLogs unmarshal m (FileUnreadable e) = RequestLogsMsg []) ∧
  (∀ file, ∃ rs, loadRequestLogs unmarshal m file = RequestLogsMsg rs ∧
                 (length rs ≤ 51)%nat) ∧
  (∀ ls, Forall noNewline ls →
     loadRequestLogs unmarshal m (FileData (unlines ls)) =
       RequestLogsMsg (omap (parseLine unmarshal)
                            (drop (length ls - 50) ls))).
Proof.
  split_and!; [done | done | |].
  - intros [|e|data]; simpl;
      [exists []; split; [done | simpl; lia]
      | exists []; split; [done | simpl; lia] |].
    eexists. split; [done|].
    etrans; [apply length_omap_le|]. rewrite length_drop.
    destruct (Z.ltb_spec (Z.of_nat (length (SplitLines data)) - 51) 0); lia.
  - intros ls Hls. simpl. rewrite SplitLines_unlines by done. f_equal.
    rewrite length_app. simpl.
    replace (Z.to_nat _) with (length ls - 50)%nat
      by (destruct (Z.ltb_spec (Z.of_nat (length ls + 1) - 51) 0); lia).
    rewrite drop_app_le by lia. rewrite omap_app.
    assert (omap (parseLine unmarshal) [""] = []) as -> by done.
    by rewrite app_nil_r.
Qed.

Lemma loadRequestLogs_reads_the_last_50_lines_witness :
  loadRequestLogs toyUnmarshal model8080
    (FileData (unlines ["GET /index.html"; "   "; "garbage";
                        "  POST /api/save "])) =
    RequestLogsMsg [mkRequestLog 0 "GET" "/index.html" 200 12000000;
                    mkRequestLog 0 "POST" "/api/save" 200 12000000].
Proof.
  destruct (loadRequestLogs_reads_the_last_50_lines toyUnmarshal model8080)
    as (_ & _ & _ & Hlines).
  rewrite Hlines.
  - vm_compute. reflexivity.
  - repeat constructor; vm_compute;
      intros Hin%list_elem_of_In; simpl in Hin; intuition discriminate.
Defined.

(** X18.  For a [duration_ms] of at most 9223372036854 in size, the
    milliseconds read back from the [Duration] of the request are the
    [duration_ms] of the line, and the other fields of the request are those
    decoded. *)
Theorem duration_ms_round_trip (raw : RawRequest) :
  - 9223372036854 ≤ raw_Duration raw ≤ 9223372036854 →
  Milliseconds (req_Duration (toRequestLog raw)) = raw_Duration raw ∧
  req_Status (toRequestLog raw) = raw_Status raw ∧
  req_Path (toRequestLog raw) = raw_Path raw ∧
  req_Method (toRequestLog raw) = raw_Method raw ∧
  req_Timestamp (toRequestLog raw) = raw_Timestamp raw.
Proof.
  intros Hms. split_and!; try done.
  unfold toRequestLog, Milliseconds, Millisecond. simpl.
  rewrite wrap64_small by lia. apply Z.quot_mul. lia.
Qed.

Lemma duration_ms_round_trip_witness :
  Milliseconds (req_Duration
                  (toRequestLog (mkRawRequest 0 "GET" "/" 200
                                              9223372036854))) =
    9223372036854 ∧
  Milliseconds (req_Duration
                  (toRequestLog (mkRawRequest 0 "GET" "/" 200
                                              9223372036855))) =
    - 9223372036854.
Proof.
  split; [|vm_compute; reflexivity].
  apply (duration_ms_round_trip (mkRawRequest 0 "GET" "/" 200 9223372036854)).
  simpl. lia.
Defined.

(** X19.  The summary line of the requests tab counts under 2xx, 3xx, 4xx
    and 5xx exactly the requests with a status from 200 to 299, 300 to 399,
    400 to 499 and 500 to 599; the four counts add up to the number of
    requests with a status from 200 to 599, so a request with any other
    status is in the total and in none of them. *)
Theorem summary_counts_by_status_class (m : DashboardModel) :
  let reqs := requests m in
  let within lo hi :=
    Z.of_nat (length (filter (λ r, lo ≤ req_Status r ≤ hi) reqs)) in
  Z.of_nat (length reqs) < 2 ^ 63 →
  (∃ avg, requestSummary m =
            [Z.of_nat (length reqs); avg; within 200 299; within 300 399;
             within 400 499; within 500 599]) ∧
  within 200 299 + within 300 399 + within 400 499 + within 500 599 =
    within 200 599.
Proof.
  intros reqs within Hlen.
  assert (∀ k, 0 < k →
            default 0 (snd (summaryLoop reqs) !! (k * 100)) =
            within (k * 100) (k * 100 + 99)) as Hcount.
  { intros k Hk. unfold summaryLoop.
    rewrite (summaryLoop_counts reqs (0, ∅) 0); simpl.
    - rewrite lookup_empty. simpl. unfold within.
      rewrite (list_filter_iff _ (λ r, k * 100 ≤ req_Status r ≤ k * 100 + 99));
        [done|].
      intros r. by apply statusClass_hundreds.
    - intros k'. by rewrite lookup_empty.
    - lia. }
  split.
  - eexists. unfold requestSummary. fold reqs.
    pose proof (Hcount 2 ltac:(lia)) as H2.
    pose proof (Hcount 3 ltac:(lia)) as H3.
    pose proof (Hcount 4 ltac:(lia)) as H4.
    pose proof (Hcount 5 ltac:(lia)) as H5.
    change (2 * 100) with 200 in H2. change (200 + 99) with 299 in H2.
    change (3 * 100) with 300 in H3. change (300 + 99) with 399 in H3.
    change (4 * 100) with 400 in H4. change (400 + 99) with 499 in H4.
    change (5 * 100) with 500 in H5. change (500 + 99) with 599 in H5.
    by rewrite H2, H3, H4, H5.
  - unfold within. clear. induction reqs as [|r reqs IH]; [done|].
    rewrite !filter_cons.
    repeat (match goal with
            | |- context [decide ?P] => destruct (decide P)
            end); simpl; lia.
Qed.

Lemma summary_counts_by_status_class_witness :
  requestSummary (withStatuses [200; 404; 101; 302; 204; 600; 500]) =
    [7; 12; 2; 1; 1; 1].
Proof.
  destruct (summary_counts_by_status_class
              (withStatuses [200; 404; 101; 302; 204; 600; 500]))
    as [[avg Hsum] _]; [vm_compute; reflexivity|].
  rewrite Hsum. vm_compute in Hsum. injection Hsum as Havg. by subst avg.
Defined.

(** X20.  When a [RequestLogsMsg] has gone through [Update], the requests
    tab lists the last 15 of its requests, in their order; a path cell is
    the path, or its first 21 bytes and three dots if the path is longer
    than 24 bytes, so never longer than 24 bytes. *)
Theorem requests_tab_shows_the_newest_15
    (now : Time) (m : DashboardModel) (rs : list RequestLog) :
  let m' := fst (Update now m (RequestLogsMsg rs)) in
  requests m' = rs ∧
  requestsTabRows m' = drop (length rs - 15) rs ∧
  (length (requestsTabRows m') ≤ 15)%nat ∧
  ∀ req, (String.length (pathCell req) ≤ 24)%nat ∧
         ((String.length (req_Path req) ≤ 24)%nat →
          pathCell req = req_Path req).
Proof.
  intros m'. subst m'. simpl.
  assert (requestsTabRows
            (mkDashboardModel (server m) rs (logs m) (selectedTab m) (tabs m)
               (width m) (height m) (startTime m) (keyMap m) (lastError m)
               (showError m)) = drop (length rs - 15) rs) as Hrows.
  { unfold requestsTabRows. simpl.
    destruct (Z.ltb_spec 15 (Z.of_nat (length rs))).
    - f_equal. lia.
    - by replace (length rs - 15)%nat with 0%nat by lia. }
  split_and!; [done | done | rewrite Hrows, length_drop; lia |].
  intros req. unfold pathCell.
  destruct (Z.ltb_spec 24 (Z.of_nat (String.length (req_Path req)))).
  - rewrite length_append, length_sliceTo.
    change (String.length "...") with 3%nat. lia.
  - split; [lia | done].
Qed.

Lemma requests_tab_shows_the_newest_15_witness :
  pathCell (mkRequestLog 0 "GET" "/assets/fonts/inter-variable.woff2" 200 0) =
    "/assets/fonts/inter-v..." ∧
  pathCell (mkRequestLog 0 "GET" "/index.html" 200 0) = "/index.html".
Proof.
  split; [vm_compute; reflexivity|].
  apply (requests_tab_shows_the_newest_15 0 model8080 []). simpl. lia.
Defined.

Section DashboardRuns.

Context `{OSModel}.

(** A selected tab within the tabs stays within them. *)
Lemma Update_keeps_tab_in_range now m msg :
  0 ≤ selectedTab m < Z.of_nat (length (tabs m)) →
  0 ≤ selectedTab (fst (Update now m msg)) < Z.of_nat (length (tabs m)).
Proof.
  intros Hsel. destruct msg; simpl; try done.
  - unfold updateKey.
    repeat (match goal with
            | |- context [if ?c then _ else _] => destruct c
            end; simpl; try done).
    + rewrite Z.rem_mod_nonneg by lia. apply Z.mod_pos_bound. lia.
    + rewrite Z.rem_mod_nonneg by lia. apply Z.mod_pos_bound. lia.
  - unfold applyStatus. destruct s as [st pid oe], m. simpl in *.
    destruct oe, st, startTime0; done.
Qed.

Lemma runUpdates_keeps_tab_in_range (msgs : list (Time * Msg)) : ∀ m,
  0 ≤ selectedTab m < Z.of_nat (length (tabs m)) →
  0 ≤ selectedTab (runUpdates m msgs) < Z.of_nat (length (tabs m)).
Proof.
  induction msgs as [|[now msg] msgs IH]; intros m Hsel; [done|].
  unfold runUpdates in *. simpl.
  destruct (Update_keeps now m msg) as (_ & _ & Ht & _).
  rewrite <- Ht. apply IH. rewrite Ht.
  by apply Update_keeps_tab_in_range.
Qed.

End DashboardRuns.

(** X21.  A dashboard made by [NewDashboardModel] starts as
    [ServerStopped] on the configured port, with no error shown, and its
    making logs "Dashboard started" at system level.  After any sequence of
    messages it is still on that port with the default keys, its selected
    tab is one of the three tabs, and its uptime is 0. *)
Theorem dashboard_from_NewDashboardModel `{OSModel}
    (port : Z) (w : World) (msgs : list (Time * Msg)) :
  let m0 := fst (NewDashboardModel port w) in
  let m := runUpdates m0 msgs in
  Status (server m0) = ServerStopped ∧ displayedError m0 = None ∧
  last (entries (w_logger (snd (NewDashboardModel port w)))) =
    Some (mkLogEntry (os_now (w_os w)) LogSystem "cli" "Dashboard started") ∧
  Port (server m) = port ∧ keyMap m = DefaultKeyMap ∧
  0 ≤ selectedTab m < 3 ∧ Uptime (server m) = 0.
Proof.
  intros m0 m.
  assert (m0 = mkDashboardModel (mkServerInfo ServerStopped port 0 0) [] [] 0
                 ["Server"; "Requests"; "Logs"] 0 0 (Some (os_now (w_os w)))
                 DefaultKeyMap "" false) as Hm0 by done.
  destruct (runUpdates_keeps msgs m0) as (Hp & Hk & Ht & Hup).
  pose proof (runUpdates_keeps_tab_in_range msgs m0) as Hsel.
  fold m in Hp, Hk, Ht, Hsel, Hup. rewrite Hm0 in Hp, Hk, Hsel, Hup.
  simpl in Hp, Hk, Hsel, Hup.
  split_and!; [by rewrite Hm0 | by rewrite Hm0 | apply last_entries_Log
               | done | done | lia | lia | by apply Hup].
Qed.
